(** * Backend interop layer of the SYCL runtime: import of native handles

    A shallow embedding of [sycl/source/backend.cpp] and of
    [interop_handle::getNativeMem], together with the properties of the
    import operations and of the kernel-bundle state reconciliation.

    The Unified Runtime adapter behind a plugin is an arbitrary deterministic
    responder: a function from the interaction log so far and the entry point
    being called to a reply.  Every operation runs in a small monad that
    threads that log and may throw, so that "which native calls were issued,
    in which order, before which failure" is a statement about the log. *)

From Stdlib Require Import ZArith Bool String.
From stdpp Require Import base decidable option list.

Local Open Scope string_scope.
Local Open Scope Z_scope.
Local Open Scope list_scope.

(** ** Enumerations *)

(** [sycl::backend].  [backend_other] stands for every value of the
    enumeration that no [case] label of this file names. *)
Inductive backend : Set :=
| backend_opencl
| backend_ext_oneapi_level_zero
| backend_ext_oneapi_cuda
| backend_ext_oneapi_hip
| backend_all
| backend_ext_intel_esimd_emulator
| backend_ext_oneapi_native_cpu
| backend_other (raw : Z).

(** [pi_platform_backend]: the seven enumerators the switch of
    [convertBackend] names, and [PI_EXT_PLATFORM_BACKEND_other] for a value
    of the enumeration type equal to none of them. *)
Inductive pi_platform_backend : Set :=
| PI_EXT_PLATFORM_BACKEND_UNKNOWN
| PI_EXT_PLATFORM_BACKEND_LEVEL_ZERO
| PI_EXT_PLATFORM_BACKEND_OPENCL
| PI_EXT_PLATFORM_BACKEND_CUDA
| PI_EXT_PLATFORM_BACKEND_HIP
| PI_EXT_PLATFORM_BACKEND_ESIMD
| PI_EXT_PLATFORM_BACKEND_NATIVE_CPU
| PI_EXT_PLATFORM_BACKEND_other (raw : Z).

(** [ur_platform_backend_t]; [UR_PLATFORM_BACKEND_other] covers
    [UR_PLATFORM_BACKEND_UNKNOWN] and every other value without a
    [case] label in [convertUrBackend]. *)
Inductive ur_platform_backend_t : Set :=
| UR_PLATFORM_BACKEND_LEVEL_ZERO
| UR_PLATFORM_BACKEND_OPENCL
| UR_PLATFORM_BACKEND_CUDA
| UR_PLATFORM_BACKEND_HIP
| UR_PLATFORM_BACKEND_NATIVE_CPU
| UR_PLATFORM_BACKEND_other (raw : Z).

(** [ur_program_binary_type_t] as the adapter writes it into the
    out-parameter of [urProgramGetBuildInfo]: the four enumerators of the
    switch of [make_kernel_bundle], or any other 32-bit value, which reaches
    the [default] label. *)
Inductive ur_program_binary_type_t : Set :=
| UR_PROGRAM_BINARY_TYPE_NONE
| UR_PROGRAM_BINARY_TYPE_COMPILED_OBJECT
| UR_PROGRAM_BINARY_TYPE_LIBRARY
| UR_PROGRAM_BINARY_TYPE_EXECUTABLE
| UR_PROGRAM_BINARY_TYPE_other (raw : Z).

Inductive bundle_state : Set :=
| bundle_state_input
| bundle_state_object
| bundle_state_executable.

(** [ur_result_t]: the two codes the sources test for, and the rest. *)
Inductive ur_result_t : Set :=
| UR_RESULT_SUCCESS
| UR_RESULT_ERROR_UNSUPPORTED_FEATURE
| UR_RESULT_ERROR_other (code : Z).

Inductive ur_program_info_t : Set :=
| UR_PROGRAM_INFO_NUM_DEVICES
| UR_PROGRAM_INFO_DEVICES.

Inductive errc : Set :=
| errc_runtime
| errc_invalid
| errc_build.

Inductive pi_result : Set :=
| PI_ERROR_INVALID_OPERATION
| PI_ERROR_INVALID_VALUE
| PI_ERROR_INVALID_PROGRAM
| PI_ERROR_INVALID_MEM_OBJECT.

Inductive QueueOrder : Set := Ordered | OOO.

#[global] Instance backend_eq_dec : EqDecision backend.
Proof. solve_decision. Defined.
#[global] Instance bundle_state_eq_dec : EqDecision bundle_state.
Proof. solve_decision. Defined.
#[global] Instance ur_result_eq_dec : EqDecision ur_result_t.
Proof. solve_decision. Defined.
#[global] Instance ur_program_info_eq_dec : EqDecision ur_program_info_t.
Proof. solve_decision. Defined.

(** ** Exceptions *)

(** What the sources throw.  [sycl_exception ec what code] is
    [sycl::exception(make_error_code(ec), what + codeToString(code))], the
    code being absent when the message is a plain literal;
    [ur_call_failed ec res] is what [Plugin::checkUrResult<ec>] throws for a
    failing result [res]. *)
Inductive exn : Set :=
| sycl_exception (ec : errc) (what : string) (code : option pi_result)
| runtime_error (what : string) (code : pi_result)
| invalid_object_error (what : string) (code : pi_result)
| ur_call_failed (ec : errc) (res : ur_result_t).

Inductive outcome (A : Type) : Type :=
| Ok (a : A)
| Throw (e : exn).
Arguments Ok {A} a.
Arguments Throw {A} e.

(** ** Handles, property structures and native calls *)

(** Native handles and UR object handles are pointer-sized integers;
    [nullptr] is 0. *)
Definition ur_handle := Z.
Definition nullptr : ur_handle := 0.

(** [ur_*_native_properties_t] of platform, device, context, event, program
    and kernel: only [isNativeHandleOwned] varies. *)
Record ur_native_properties_t : Set :=
  { isNativeHandleOwned : bool }.

(** The chain [NativeProperties -> Properties -> Desc] that [make_queue]
    hands over. *)
Record ur_queue_native_properties_t : Set :=
  { queue_isNativeHandleOwned : bool;
    queue_flags : Z;
    queue_pNativeData : Z }.

(** The entry points called in the two sources, with the arguments passed
    by value; a null properties pointer is [None]. *)
Inductive ur_call : Set :=
| urPlatformCreateWithNativeHandle
    (hNative : ur_handle) (pProperties : option ur_native_properties_t)
| urDeviceCreateWithNativeHandle
    (hNative hPlatform : ur_handle) (pProperties : option ur_native_properties_t)
| urContextCreateWithNativeHandle
    (hNative : ur_handle) (numDevices : Z) (phDevices : ur_handle)
    (pProperties : option ur_native_properties_t)
| urQueueCreateWithNativeHandle
    (hNative hContext hDevice : ur_handle)
    (pProperties : option ur_queue_native_properties_t)
| urEventCreateWithNativeHandle
    (hNative hContext : ur_handle) (pProperties : option ur_native_properties_t)
| urEventRetain (hEvent : ur_handle)
| urProgramCreateWithNativeHandle
    (hNative hContext : ur_handle) (pProperties : option ur_native_properties_t)
| urProgramRetain (hProgram : ur_handle)
| urProgramGetInfo (hProgram : ur_handle) (propName : ur_program_info_t) (propSize : Z)
| urProgramGetBuildInfo (hProgram hDevice : ur_handle)
| urProgramCompileExp (hProgram : ur_handle) (phDevices : list ur_handle)
| urProgramCompile (hContext hProgram : ur_handle)
| urProgramBuildExp (hProgram : ur_handle) (phDevices : list ur_handle)
| urProgramBuild (hContext hProgram : ur_handle)
| urProgramLinkExp
    (hContext : ur_handle) (phDevices : list ur_handle) (phPrograms : list ur_handle)
| urProgramLink (hContext : ur_handle) (phPrograms : list ur_handle)
| urKernelCreateWithNativeHandle
    (hNative hContext hProgram : ur_handle) (pProperties : option ur_native_properties_t)
| urKernelRetain (hKernel : ur_handle)
| urMemGetNativeHandle (hMem hDevice : ur_handle).

(** What an entry point hands back: its result code and whatever it wrote
    through its out-parameter.  [out_handle = None] means the out-parameter
    was left untouched. *)
Record ur_reply : Set :=
  { rep_result : ur_result_t;
    out_handle : option ur_handle;
    out_uint32 : option nat;
    out_devices : list ur_handle;
    out_binary_type : ur_program_binary_type_t }.

Record event_log_entry : Set :=
  { ev_call : ur_call;
    ev_reply : ur_reply }.

Definition log := list event_log_entry.

(** A plugin answers a call knowing everything that happened before. *)
Definition plugin := log -> ur_call -> ur_reply.

(** ** The monad of the import operations *)

Definition M (A : Type) : Type := log -> outcome A * log.

Definition ret {A} (a : A) : M A := fun t => (Ok a, t).

Definition throw {A} (e : exn) : M A := fun t => (Throw e, t).

Definition bind {A B} (m : M A) (k : A -> M B) : M B :=
  fun t =>
    match m t with
    | (Ok a, t') => k a t'
    | (Throw e, t') => (Throw e, t')
    end.

Declare Scope interop_scope.
Delimit Scope interop_scope with interop.
Notation "x <- m ;; k" := (bind m (fun x => k))
  (at level 100, m at next level, right associativity) : interop_scope.
Notation "m ;;; k" := (bind m (fun _ => k))
  (at level 100, right associativity) : interop_scope.
Local Open Scope interop_scope.

(** [Plugin->call_nocheck(f, args...)]: the call is issued and logged, the
    result is handed back unchecked. *)
Definition call_nocheck (Plugin : plugin) (c : ur_call) : M ur_reply :=
  fun t =>
    let r := Plugin t c in
    (Ok r, t ++ [{| ev_call := c; ev_reply := r |}]).

(** Modelled from the spec: [Plugin::checkUrResult<ec>] of detail/plugin.hpp,
    which is not among the sources; any result other than success is raised
    as an error of the given category, wrapping the native code. *)
Definition checkUrResult (ec : errc) (res : ur_result_t) : M unit :=
  match res with
  | UR_RESULT_SUCCESS => ret tt
  | _ => throw (ur_call_failed ec res)
  end.

(** Modelled from the spec: [Plugin::call] of detail/plugin.hpp, which is
    not among the sources; the call is issued as by [call_nocheck] and a
    failing result is raised at once, as an [errc::runtime] error wrapping
    the native code. *)
Definition call (Plugin : plugin) (c : ur_call) : M ur_reply :=
  r <- call_nocheck Plugin c ;;
  checkUrResult errc_runtime (rep_result r) ;;;
  ret r.

(** An out-parameter initialised to [init] and then passed to a call. *)
Definition written (init : ur_handle) (r : ur_reply) : ur_handle :=
  default init (out_handle r).

(** ** Platform-tag conversions *)

Definition convertBackend (PiBackend : pi_platform_backend) : outcome backend :=
  match PiBackend with
  | PI_EXT_PLATFORM_BACKEND_UNKNOWN => Ok backend_all
  | PI_EXT_PLATFORM_BACKEND_LEVEL_ZERO => Ok backend_ext_oneapi_level_zero
  | PI_EXT_PLATFORM_BACKEND_OPENCL => Ok backend_opencl
  | PI_EXT_PLATFORM_BACKEND_CUDA => Ok backend_ext_oneapi_cuda
  | PI_EXT_PLATFORM_BACKEND_HIP => Ok backend_ext_oneapi_hip
  | PI_EXT_PLATFORM_BACKEND_ESIMD => Ok backend_ext_intel_esimd_emulator
  | PI_EXT_PLATFORM_BACKEND_NATIVE_CPU => Ok backend_ext_oneapi_native_cpu
  | PI_EXT_PLATFORM_BACKEND_other _ =>
      Throw (runtime_error "convertBackend: Unsupported backend"
                           PI_ERROR_INVALID_OPERATION)
  end.

Definition convertUrBackend (UrBackend : ur_platform_backend_t) : backend :=
  match UrBackend with
  | UR_PLATFORM_BACKEND_LEVEL_ZERO => backend_ext_oneapi_level_zero
  | UR_PLATFORM_BACKEND_OPENCL => backend_opencl
  | UR_PLATFORM_BACKEND_CUDA => backend_ext_oneapi_cuda
  | UR_PLATFORM_BACKEND_HIP => backend_ext_oneapi_hip
  | UR_PLATFORM_BACKEND_NATIVE_CPU => backend_ext_oneapi_native_cpu
  | UR_PLATFORM_BACKEND_other _ => backend_all
  end.

(** ** Managed objects *)

Definition async_handler := Z.

Record platform : Set :=
  { platform_handle : ur_handle }.

Record device : Set :=
  { device_handle : ur_handle;
    device_platform : platform }.

(** [context_impl]: [getUrHandleRef()], the handler and [getBackend()]. *)
Record context : Set :=
  { context_handle : ur_handle;
    context_handler : async_handler;
    context_backend : backend }.

(** The queue properties [make_queue] looks for, and the others. *)
Inductive queue_property : Set :=
| compute_index (idx : Z)
| in_order
| other_queue_property (kind : Z).

Definition property_list := list queue_property.

Definition has_compute_index (PropList : property_list) : bool :=
  existsb (fun p => match p with compute_index _ => true | _ => false end) PropList.

Definition has_in_order (PropList : property_list) : bool :=
  existsb (fun p => match p with in_order => true | _ => false end) PropList.

Record queue : Set :=
  { queue_handle : ur_handle;
    queue_context : context;
    queue_handler : async_handler;
    queue_properties : property_list }.

Record event : Set :=
  { event_handle : ur_handle;
    event_context : context }.

Record device_image : Set :=
  { image_context : context;
    image_devices : list device;
    image_state : bundle_state;
    image_kernel_ids : list Z;
    get_ur_program_ref : ur_handle }.

(** [kernel_bundle_impl]; [size()] is the number of device images. *)
Record kernel_bundle : Set :=
  { bundle_context : context;
    bundle_devices : list device;
    bundle_images : list device_image }.

Record kernel : Set :=
  { kernel_handle : ur_handle;
    kernel_context : context;
    kernel_bundle_of : kernel_bundle }.

(** [interop_handle]: the bound queue, device and context of the host task
    and its captured requirement-to-memory-object pairs ([Requirement *] is
    an address). *)
Record interop_handle : Set :=
  { MQueue : queue;
    MDevice : device;
    MContext : context;
    MMemObjs : list (Z * ur_handle) }.

(** ** Simulated adapters

    Concrete responders, used to run the operations on explicit inputs. *)

Definition reply_ok (h : ur_handle) (n : nat) (devs : list ur_handle)
    (bt : ur_program_binary_type_t) : ur_reply :=
  {| rep_result := UR_RESULT_SUCCESS;
     out_handle := Some h;
     out_uint32 := Some n;
     out_devices := devs;
     out_binary_type := bt |}.

(** Every call succeeds; objects get handle 7, a program has the devices
    [devs], each in binary state [bt]. *)
Definition sim_plugin (devs : list ur_handle) (bt : ur_program_binary_type_t)
  : plugin :=
  fun _ _ => reply_ok 7 (length devs) devs bt.

(** As [sim_plugin], but without the per-device "Exp" entry points. *)
Definition sim_plugin_legacy (devs : list ur_handle)
    (bt : ur_program_binary_type_t) : plugin :=
  fun _ c =>
    match c with
    | urProgramCompileExp _ _ | urProgramBuildExp _ _ | urProgramLinkExp _ _ _ =>
        {| rep_result := UR_RESULT_ERROR_UNSUPPORTED_FEATURE;
           out_handle := None; out_uint32 := None; out_devices := [];
           out_binary_type := bt |}
    | _ => reply_ok 7 (length devs) devs bt
    end.

(** Every call fails with the same native error code. *)
Definition sim_plugin_failing (code : Z) : plugin :=
  fun _ _ =>
    {| rep_result := UR_RESULT_ERROR_other code;
       out_handle := None; out_uint32 := None; out_devices := [];
       out_binary_type := UR_PROGRAM_BINARY_TYPE_NONE |}.

Definition sim_platform_of (Dev : ur_handle) (_ : plugin) : platform :=
  {| platform_handle := 1 |}.

Definition sim_context (b : backend) : context :=
  {| context_handle := 50; context_handler := 0; context_backend := b |}.

Definition sim_empty_bundle (Ctx : context) : kernel_bundle :=
  {| bundle_context := Ctx; bundle_devices := []; bundle_images := [] |}.

(** ** The import operations of backend.cpp *)

Section Backend.

(** [pi::getUrPlugin<B>()]: the plugin loaded for each backend. *)
Variable pi_getUrPlugin : backend -> plugin.

(** [platform_impl::getPlatformFromUrDevice], part of the device and
    platform registry. *)
Variable getPlatformFromUrDevice : ur_handle -> plugin -> platform.

(** [queue_impl::createUrQueueFlags]. *)
Variable createUrQueueFlags : property_list -> QueueOrder -> Z.

(** [get_empty_interop_kernel_bundle<bundle_state::executable>]. *)
Variable get_empty_interop_kernel_bundle : context -> kernel_bundle.

Definition getUrPlugin (Backend : backend) : M plugin :=
  match Backend with
  | backend_opencl => ret (pi_getUrPlugin backend_opencl)
  | backend_ext_oneapi_level_zero =>
      ret (pi_getUrPlugin backend_ext_oneapi_level_zero)
  | backend_ext_oneapi_cuda => ret (pi_getUrPlugin backend_ext_oneapi_cuda)
  | backend_ext_oneapi_hip => ret (pi_getUrPlugin backend_ext_oneapi_hip)
  | _ =>
      throw (sycl_exception errc_runtime "getUrPlugin: Unsupported backend "
                            (Some PI_ERROR_INVALID_OPERATION))
  end.

Definition make_platform (NativeHandle : ur_handle) (Backend : backend)
  : M platform :=
  Plugin <- getUrPlugin Backend ;;
  r <- call Plugin (urPlatformCreateWithNativeHandle NativeHandle None) ;;
  let UrPlatform := written nullptr r in
  ret {| platform_handle := UrPlatform |}.

(** [device_impl(UrDevice, Plugin)] finds the platform of the device in
    the registry. *)
Definition make_device (NativeHandle : ur_handle) (Backend : backend)
  : M device :=
  Plugin <- getUrPlugin Backend ;;
  r <- call Plugin (urDeviceCreateWithNativeHandle NativeHandle nullptr None) ;;
  let UrDevice := written nullptr r in
  ret {| device_handle := UrDevice;
         device_platform := getPlatformFromUrDevice UrDevice Plugin |}.

Definition make_context (NativeHandle : ur_handle) (Handler : async_handler)
    (Backend : backend) : M context :=
  Plugin <- getUrPlugin Backend ;;
  let Properties := {| isNativeHandleOwned := false |} in
  r <- call Plugin
         (urContextCreateWithNativeHandle NativeHandle 0 nullptr (Some Properties)) ;;
  let UrContext := written nullptr r in
  ret {| context_handle := UrContext;
         context_handler := Handler;
         context_backend := Backend |}.

Definition make_queue (NativeHandle : ur_handle) (NativeHandleDesc : Z)
    (Context : context) (Device : option device) (KeepOwnership : bool)
    (PropList : property_list) (Handler : async_handler) (Backend : backend)
  : M queue :=
  let UrDevice :=
    match Device with Some d => device_handle d | None => nullptr end in
  Plugin <- getUrPlugin Backend ;;
  let ContextImpl := Context in
  if has_compute_index PropList then
    throw (sycl_exception errc_invalid
             "Queue create using make_queue cannot have compute_index property."
             None)
  else
    let NativeProperties :=
      {| queue_isNativeHandleOwned := negb KeepOwnership;
         queue_flags :=
           createUrQueueFlags PropList
             (if has_in_order PropList then Ordered else OOO);
         queue_pNativeData := NativeHandleDesc |} in
    r <- call Plugin
           (urQueueCreateWithNativeHandle NativeHandle
              (context_handle ContextImpl) UrDevice (Some NativeProperties)) ;;
    let UrQueue := written nullptr r in
    ret {| queue_handle := UrQueue;
           queue_context := ContextImpl;
           queue_handler := Handler;
           queue_properties := PropList |}.

Definition make_event (NativeHandle : ur_handle) (Context : context)
    (KeepOwnership : bool) (Backend : backend) : M event :=
  Plugin <- getUrPlugin Backend ;;
  let ContextImpl := Context in
  let Properties := {| isNativeHandleOwned := negb KeepOwnership |} in
  r <- call Plugin
         (urEventCreateWithNativeHandle NativeHandle
            (context_handle ContextImpl) (Some Properties)) ;;
  let UrEvent := written nullptr r in
  let Event := {| event_handle := UrEvent; event_context := Context |} in
  (if decide (Backend = backend_opencl)
   then call Plugin (urEventRetain UrEvent) ;;; ret tt
   else ret tt) ;;;
  ret Event.

(** The overload without an ownership flag. *)
Definition make_event_3 (NativeHandle : ur_handle) (Context : context)
    (Backend : backend) : M event :=
  make_event NativeHandle Context false Backend.

(** *** make_kernel_bundle *)

Definition state_mismatch : exn :=
  sycl_exception errc_runtime "Program and kernel_bundle state mismatch "
                 (Some PI_ERROR_INVALID_VALUE).

(** The [switch (BinaryType)] of the per-device loop.  [UrProgram] is the
    local variable of [make_kernel_bundle]; the link entry points write
    their result back into it, so its value after the statement is
    returned. *)
Definition reconcile_switch (Plugin : plugin) (ContextImpl : context)
    (State : bundle_state) (Dev : ur_handle)
    (BinaryType : ur_program_binary_type_t) (UrProgram : ur_handle)
  : M ur_handle :=
  match BinaryType with
  | UR_PROGRAM_BINARY_TYPE_NONE =>
      if decide (State = bundle_state_object) then
        r <- call_nocheck Plugin (urProgramCompileExp UrProgram [Dev]) ;;
        Res <- (if decide (rep_result r = UR_RESULT_ERROR_UNSUPPORTED_FEATURE)
                then r' <- call_nocheck Plugin
                             (urProgramCompile (context_handle ContextImpl)
                                               UrProgram) ;;
                     ret (rep_result r')
                else ret (rep_result r)) ;;
        checkUrResult errc_build Res ;;;
        ret UrProgram
      else if decide (State = bundle_state_executable) then
        r <- call_nocheck Plugin (urProgramBuildExp UrProgram [Dev]) ;;
        Res <- (if decide (rep_result r = UR_RESULT_ERROR_UNSUPPORTED_FEATURE)
                then r' <- call_nocheck Plugin
                             (urProgramBuild (context_handle ContextImpl)
                                             UrProgram) ;;
                     ret (rep_result r')
                else ret (rep_result r)) ;;
        checkUrResult errc_build Res ;;;
        ret UrProgram
      else ret UrProgram
  | UR_PROGRAM_BINARY_TYPE_COMPILED_OBJECT
  | UR_PROGRAM_BINARY_TYPE_LIBRARY =>
      if decide (State = bundle_state_input) then throw state_mismatch
      else if decide (State = bundle_state_executable) then
        r <- call_nocheck Plugin
               (urProgramLinkExp (context_handle ContextImpl) [Dev] [UrProgram]) ;;
        let UrProgram1 := written UrProgram r in
        linked <-
           (if decide (rep_result r = UR_RESULT_ERROR_UNSUPPORTED_FEATURE)
            then r' <- call_nocheck Plugin
                         (urProgramLink (context_handle ContextImpl)
                                        [UrProgram1]) ;;
                 ret (rep_result r', written UrProgram1 r')
            else ret (rep_result r, UrProgram1)) ;;
        checkUrResult errc_build (fst linked) ;;;
        ret (snd linked)
      else ret UrProgram
  | UR_PROGRAM_BINARY_TYPE_EXECUTABLE =>
      if decide (State = bundle_state_input \/ State = bundle_state_object)
      then throw state_mismatch
      else ret UrProgram
  | UR_PROGRAM_BINARY_TYPE_other _ => ret UrProgram
  end.

(** One iteration of [for (auto &Dev : ProgramDevices)]. *)
Definition reconcile_device (Plugin : plugin) (ContextImpl : context)
    (State : bundle_state) (UrProgram : ur_handle) (Dev : ur_handle)
  : M ur_handle :=
  r <- call Plugin (urProgramGetBuildInfo UrProgram Dev) ;;
  reconcile_switch Plugin ContextImpl State Dev (out_binary_type r) UrProgram.

(** The whole loop, in the order of the vector. *)
Fixpoint reconcile_devices (Plugin : plugin) (ContextImpl : context)
    (State : bundle_state) (ProgramDevices : list ur_handle)
    (UrProgram : ur_handle) : M ur_handle :=
  match ProgramDevices with
  | [] => ret UrProgram
  | Dev :: rest =>
      UrProgram' <- reconcile_device Plugin ContextImpl State UrProgram Dev ;;
      reconcile_devices Plugin ContextImpl State rest UrProgram'
  end.

(** The lambda of the [std::transform] that wraps the device handles;
    managed wrappers are values, so the registry's deduplication is
    equality of records. *)
Definition wrap_device (Plugin : plugin) (Dev : ur_handle) : device :=
  let Platform := getPlatformFromUrDevice Dev Plugin in
  {| device_handle := Dev; device_platform := Platform |}.

Definition make_kernel_bundle (NativeHandle : ur_handle)
    (TargetContext : context) (KeepOwnership : bool) (State : bundle_state)
    (Backend : backend) : M kernel_bundle :=
  Plugin <- getUrPlugin Backend ;;
  let ContextImpl := TargetContext in
  let Properties := {| isNativeHandleOwned := negb KeepOwnership |} in
  r <- call Plugin
         (urProgramCreateWithNativeHandle NativeHandle
            (context_handle ContextImpl) (Some Properties)) ;;
  let UrProgram := written nullptr r in
  (if decide (context_backend ContextImpl = backend_opencl)
   then call Plugin (urProgramRetain UrProgram) ;;; ret tt
   else ret tt) ;;;
  rn <- call Plugin (urProgramGetInfo UrProgram UR_PROGRAM_INFO_NUM_DEVICES 4) ;;
  let NumDevices := default 0%nat (out_uint32 rn) in
  rd <- call Plugin
          (urProgramGetInfo UrProgram UR_PROGRAM_INFO_DEVICES
             (8 * Z.of_nat NumDevices)) ;;
  let ProgramDevices := resize NumDevices nullptr (out_devices rd) in
  UrProgram' <-
    reconcile_devices Plugin ContextImpl State ProgramDevices UrProgram ;;
  let Devices := map (wrap_device Plugin) ProgramDevices in
  let KernelIDs := [] in
  let DevImg :=
    {| image_context := TargetContext;
       image_devices := Devices;
       image_state := State;
       image_kernel_ids := KernelIDs;
       get_ur_program_ref := UrProgram' |} in
  ret {| bundle_context := TargetContext;
         bundle_devices := Devices;
         bundle_images := [DevImg] |}.

(** [make_kernel_bundle] from the first device query on, the program
    having been imported as [UrProgram]; a name for the second half of the
    function, see [make_kernel_bundle_eq]. *)
Definition reconcile_imported (Plugin : plugin) (TargetContext : context)
    (State : bundle_state) (UrProgram : ur_handle) : M kernel_bundle :=
  rn <- call Plugin (urProgramGetInfo UrProgram UR_PROGRAM_INFO_NUM_DEVICES 4) ;;
  let NumDevices := default 0%nat (out_uint32 rn) in
  rd <- call Plugin
          (urProgramGetInfo UrProgram UR_PROGRAM_INFO_DEVICES
             (8 * Z.of_nat NumDevices)) ;;
  let ProgramDevices := resize NumDevices nullptr (out_devices rd) in
  UrProgram' <-
    reconcile_devices Plugin TargetContext State ProgramDevices UrProgram ;;
  let Devices := map (wrap_device Plugin) ProgramDevices in
  ret {| bundle_context := TargetContext;
         bundle_devices := Devices;
         bundle_images :=
           [{| image_context := TargetContext;
               image_devices := Devices;
               image_state := State;
               image_kernel_ids := [];
               get_ur_program_ref := UrProgram' |}] |}.

(** The overload without an ownership flag. *)
Definition make_kernel_bundle_4 (NativeHandle : ur_handle)
    (TargetContext : context) (State : bundle_state) (Backend : backend)
  : M kernel_bundle :=
  make_kernel_bundle NativeHandle TargetContext false State Backend.

(** *** make_kernel *)

Definition single_image_expected : exn :=
  sycl_exception errc_runtime
    "make_kernel: kernel_bundle must have single program image "
    (Some PI_ERROR_INVALID_PROGRAM).

Definition make_kernel (TargetContext : context) (KernelBundle : kernel_bundle)
    (NativeHandle : ur_handle) (KeepOwnership : bool) (Backend : backend)
  : M kernel :=
  Plugin <- getUrPlugin Backend ;;
  let ContextImpl := TargetContext in
  let KernelBundleImpl := KernelBundle in
  UrProgram <-
    (if decide (Backend = backend_ext_oneapi_level_zero) then
       if decide (length (bundle_images KernelBundleImpl) <> 1%nat)
       then throw single_image_expected
       else
         match bundle_images KernelBundleImpl with
         | DeviceImage :: _ => ret (get_ur_program_ref DeviceImage)
         | [] => ret nullptr (* not reached: the size is 1 *)
         end
     else ret nullptr) ;;
  let Properties := {| isNativeHandleOwned := negb KeepOwnership |} in
  r <- call Plugin
         (urKernelCreateWithNativeHandle NativeHandle
            (context_handle ContextImpl) UrProgram (Some Properties)) ;;
  let UrKernel := written nullptr r in
  (if decide (Backend = backend_opencl)
   then call Plugin (urKernelRetain UrKernel) ;;; ret tt
   else ret tt) ;;;
  ret {| kernel_handle := UrKernel;
         kernel_context := ContextImpl;
         kernel_bundle_of := KernelBundleImpl |}.

(** The overload that takes only the native handle. *)
Definition make_kernel_3 (NativeHandle : ur_handle) (TargetContext : context)
    (Backend : backend) : M kernel :=
  make_kernel TargetContext (get_empty_interop_kernel_bundle TargetContext)
              NativeHandle false Backend.

(** ** interop_handle::getNativeMem *)

(** [MQueue->getPlugin()]: the plugin of the queue's context. *)
Definition queue_getPlugin (Q : queue) : plugin :=
  pi_getUrPlugin (context_backend (queue_context Q)).

(** The local [Handle] is declared without initialiser, so what it holds
    before the call is indeterminate: that content is the argument [Handle],
    about which nothing is assumed.  It is what the function returns when
    the adapter reports success without writing its out-parameter. *)
Definition getNativeMem (IH : interop_handle) (Req : Z) (Handle : ur_handle)
  : M ur_handle :=
  let Iter := find (fun Elem => Z.eqb (fst Elem) Req) (MMemObjs IH) in
  match Iter with
  | None =>
      throw (invalid_object_error "Invalid memory object used inside interop"
                                  PI_ERROR_INVALID_MEM_OBJECT)
  | Some Elem =>
      let Plugin := queue_getPlugin (MQueue IH) in
      r <- call Plugin
             (urMemGetNativeHandle (snd Elem) (device_handle (MDevice IH))) ;;
      ret (written Handle r)
  end.

End Backend.

(** ** Reading the log *)

Definition entry (Plugin : plugin) (t : log) (c : ur_call) : event_log_entry :=
  {| ev_call := c; ev_reply := Plugin t c |}.

Definition is_compile_call (c : ur_call) : bool :=
  match c with
  | urProgramCompileExp _ _ | urProgramCompile _ _ => true
  | _ => false
  end.

Definition is_build_call (c : ur_call) : bool :=
  match c with
  | urProgramBuildExp _ _ | urProgramBuild _ _ => true
  | _ => false
  end.

Definition is_link_call (c : ur_call) : bool :=
  match c with
  | urProgramLinkExp _ _ _ | urProgramLink _ _ => true
  | _ => false
  end.

Definition is_retain_call (c : ur_call) : bool :=
  match c with
  | urEventRetain _ | urProgramRetain _ | urKernelRetain _ => true
  | _ => false
  end.

Definition is_binary_type_query (c : ur_call) : bool :=
  match c with
  | urProgramGetBuildInfo _ _ => true
  | _ => false
  end.

(** The ownership-transfer property a create-from-native-handle call
    carries: [None] for any other entry point, [Some None] for a null
    properties pointer, [Some (Some b)] for [isNativeHandleOwned = b]. *)
Definition ownership_property (c : ur_call) : option (option bool) :=
  match c with
  | urPlatformCreateWithNativeHandle _ p
  | urDeviceCreateWithNativeHandle _ _ p
  | urContextCreateWithNativeHandle _ _ _ p
  | urEventCreateWithNativeHandle _ _ p
  | urProgramCreateWithNativeHandle _ _ p
  | urKernelCreateWithNativeHandle _ _ _ p =>
      Some (isNativeHandleOwned <$> p)
  | urQueueCreateWithNativeHandle _ _ _ p =>
      Some (queue_isNativeHandleOwned <$> p)
  | _ => None
  end.

Definition is_create_call (c : ur_call) : bool :=
  bool_decide (ownership_property c <> None).

(** The devices whose binary type was queried, in the order of the
    queries. *)
Definition queried_devices (t : log) : list ur_handle :=
  omap (fun ev => match ev_call ev with
                  | urProgramGetBuildInfo _ Dev => Some Dev
                  | _ => None
                  end) t.

Definition is_device_op_call (c : ur_call) : bool :=
  is_compile_call c || is_build_call c || is_link_call c.

Definition is_reconcile_call (c : ur_call) : bool :=
  is_binary_type_query c || is_device_op_call c.

Definition count_calls (f : ur_call -> bool) (t : list event_log_entry)
  : nat :=
  length (filter (fun ev => f (ev_call ev) = true) t).

Definition succeeded (ev : event_log_entry) : Prop :=
  rep_result (ev_reply ev) = UR_RESULT_SUCCESS.

(** ** The reconciliation table, in the words of the specification *)

Inductive device_op : Set := op_compile | op_build | op_link.

Inductive reconcile_action : Set :=
| act_run (op : device_op)
| act_nothing
| act_mismatch.

(** The rows the specification lists; a pair it does not list has no
    entry. *)
Definition spec_action (bt : ur_program_binary_type_t) (st : bundle_state)
  : option reconcile_action :=
  match bt, st with
  | UR_PROGRAM_BINARY_TYPE_NONE, bundle_state_object => Some (act_run op_compile)
  | UR_PROGRAM_BINARY_TYPE_NONE, bundle_state_executable => Some (act_run op_build)
  | UR_PROGRAM_BINARY_TYPE_NONE, bundle_state_input => None
  | (UR_PROGRAM_BINARY_TYPE_COMPILED_OBJECT | UR_PROGRAM_BINARY_TYPE_LIBRARY),
    bundle_state_object => Some act_nothing
  | (UR_PROGRAM_BINARY_TYPE_COMPILED_OBJECT | UR_PROGRAM_BINARY_TYPE_LIBRARY),
    bundle_state_executable => Some (act_run op_link)
  | (UR_PROGRAM_BINARY_TYPE_COMPILED_OBJECT | UR_PROGRAM_BINARY_TYPE_LIBRARY),
    bundle_state_input => Some act_mismatch
  | UR_PROGRAM_BINARY_TYPE_EXECUTABLE, bundle_state_executable => Some act_nothing
  | UR_PROGRAM_BINARY_TYPE_EXECUTABLE, _ => Some act_mismatch
  | UR_PROGRAM_BINARY_TYPE_other _, _ => None
  end.


(** The modern, per-device entry point of an operation. *)
Definition modern_call (op : device_op) (ContextImpl : context)
    (Dev UrProgram : ur_handle) : ur_call :=
  match op with
  | op_compile => urProgramCompileExp UrProgram [Dev]
  | op_build => urProgramBuildExp UrProgram [Dev]
  | op_link => urProgramLinkExp (context_handle ContextImpl) [Dev] [UrProgram]
  end.

(** The legacy, whole-program entry point of an operation. *)
Definition legacy_call (op : device_op) (ContextImpl : context)
    (UrProgram : ur_handle) : ur_call :=
  match op with
  | op_compile => urProgramCompile (context_handle ContextImpl) UrProgram
  | op_build => urProgramBuild (context_handle ContextImpl) UrProgram
  | op_link => urProgramLink (context_handle ContextImpl) [UrProgram]
  end.

(** The program handle after an entry point of [op] replied [r]: only the
    link entry points take [&UrProgram] as their out-parameter. *)
Definition program_after (op : device_op) (UrProgram : ur_handle)
    (r : ur_reply) : ur_handle :=
  match op with
  | op_link => written UrProgram r
  | _ => UrProgram
  end.

(** The outcome of [checkUrResult<errc::build>(Res)] followed by the end of
    the case, the program handle being [p]. *)
Definition build_checked (Res : ur_result_t) (p : ur_handle)
  : outcome ur_handle :=
  match Res with
  | UR_RESULT_SUCCESS => Ok p
  | _ => Throw (ur_call_failed errc_build Res)
  end.


(** The requested state can be reached from, or is, the binary state: the
    rows of the table that do not end in a mismatch.  A binary type outside
    the four known ones is compatible with nothing. *)
Definition compatible (bt : ur_program_binary_type_t) (st : bundle_state)
  : bool :=
  match bt, st with
  | UR_PROGRAM_BINARY_TYPE_NONE, _ => true
  | (UR_PROGRAM_BINARY_TYPE_COMPILED_OBJECT | UR_PROGRAM_BINARY_TYPE_LIBRARY),
    (bundle_state_object | bundle_state_executable) => true
  | UR_PROGRAM_BINARY_TYPE_EXECUTABLE, bundle_state_executable => true
  | _, _ => false
  end.

Definition known_binary_type (bt : ur_program_binary_type_t) : bool :=
  match bt with
  | UR_PROGRAM_BINARY_TYPE_other _ => false
  | _ => true
  end.

(** A binary-type query whose answer, if it is one of the four known
    types, is compatible with the requested state. *)
Definition query_accepted (State : bundle_state) (ev : event_log_entry)
  : Prop :=
  is_binary_type_query (ev_call ev) = true ->
  known_binary_type (out_binary_type (ev_reply ev)) = true ->
  compatible (out_binary_type (ev_reply ev)) State = true.

(** ** The import operations as one family *)

Definition supported_backend (Backend : backend) : bool :=
  match Backend with
  | backend_opencl | backend_ext_oneapi_level_zero
  | backend_ext_oneapi_cuda | backend_ext_oneapi_hip => true
  | _ => false
  end.

(** An import operation with its arguments, one constructor per entry point
    of backend.cpp that takes a native handle. *)
Inductive import_op : Set :=
| import_platform (NativeHandle : ur_handle) (Backend : backend)
| import_device (NativeHandle : ur_handle) (Backend : backend)
| import_context (NativeHandle : ur_handle) (Handler : async_handler)
    (Backend : backend)
| import_queue (NativeHandle : ur_handle) (NativeHandleDesc : Z)
    (Context : context) (Device : option device) (KeepOwnership : bool)
    (PropList : property_list) (Handler : async_handler) (Backend : backend)
| import_event (NativeHandle : ur_handle) (Context : context)
    (KeepOwnership : bool) (Backend : backend)
| import_kernel_bundle (NativeHandle : ur_handle) (TargetContext : context)
    (KeepOwnership : bool) (State : bundle_state) (Backend : backend)
| import_kernel (TargetContext : context) (KernelBundle : kernel_bundle)
    (NativeHandle : ur_handle) (KeepOwnership : bool) (Backend : backend).

Inductive managed_object : Set :=
| ManagedPlatform (p : platform)
| ManagedDevice (d : device)
| ManagedContext (c : context)
| ManagedQueue (q : queue)
| ManagedEvent (e : event)
| ManagedKernelBundle (b : kernel_bundle)
| ManagedKernel (k : kernel).

Section ImportFamily.

Variable pi_getUrPlugin : backend -> plugin.
Variable getPlatformFromUrDevice : ur_handle -> plugin -> platform.
Variable createUrQueueFlags : property_list -> QueueOrder -> Z.

Definition run_import (op : import_op) : M managed_object :=
  match op with
  | import_platform h b =>
      x <- make_platform pi_getUrPlugin h b ;; ret (ManagedPlatform x)
  | import_device h b =>
      x <- make_device pi_getUrPlugin getPlatformFromUrDevice h b ;;
      ret (ManagedDevice x)
  | import_context h hd b =>
      x <- make_context pi_getUrPlugin h hd b ;; ret (ManagedContext x)
  | import_queue h desc ctx dev keep props hd b =>
      x <- make_queue pi_getUrPlugin createUrQueueFlags h desc ctx dev keep
             props hd b ;;
      ret (ManagedQueue x)
  | import_event h ctx keep b =>
      x <- make_event pi_getUrPlugin h ctx keep b ;; ret (ManagedEvent x)
  | import_kernel_bundle h ctx keep st b =>
      x <- make_kernel_bundle pi_getUrPlugin getPlatformFromUrDevice h ctx
             keep st b ;;
      ret (ManagedKernelBundle x)
  | import_kernel ctx kb h keep b =>
      x <- make_kernel pi_getUrPlugin ctx kb h keep b ;; ret (ManagedKernel x)
  end.

End ImportFamily.

(** The caller's [KeepOwnership] argument, for the operations that have
    one. *)
Definition caller_KeepOwnership (op : import_op) : option bool :=
  match op with
  | import_platform _ _ | import_device _ _ | import_context _ _ _ => None
  | import_queue _ _ _ _ keep _ _ _
  | import_event _ _ keep _
  | import_kernel_bundle _ _ keep _ _
  | import_kernel _ _ _ keep _ => Some keep
  end.

(** The [isNativeHandleOwned] each operation sets in the properties of its
    create call; [None] is a null properties pointer. *)
Definition passed_ownership (op : import_op) : option bool :=
  match op with
  | import_platform _ _ | import_device _ _ => None
  | import_context _ _ _ => Some false
  | import_queue _ _ _ _ keep _ _ _
  | import_event _ _ keep _
  | import_kernel_bundle _ _ keep _ _
  | import_kernel _ _ _ keep _ => Some (negb keep)
  end.

(** A host task bound to an OpenCL queue that captured three memory
    requirements, two of them under the same requirement address. *)
Definition sim_interop_handle : interop_handle :=
  {| MQueue := {| queue_handle := 60;
                  queue_context := sim_context backend_opencl;
                  queue_handler := 0;
                  queue_properties := [] |};
     MDevice := {| device_handle := 101;
                   device_platform := {| platform_handle := 1 |} |};
     MContext := sim_context backend_opencl;
     MMemObjs := [(1, 10); (2, 20); (2, 30)] |}.

(** Two runs of [make_kernel] that end alike: the same exception, or
    kernels with the same handle and context. *)
Definition same_kernel_outcome (a b : outcome kernel) : Prop :=
  match a, b with
  | Ok k, Ok k' =>
      kernel_handle k = kernel_handle k' /\ kernel_context k = kernel_context k'
  | Throw e, Throw e' => e = e'
  | _, _ => False
  end.

(** ** Calls issued by a computation, whatever its outcome *)

(** Every call [m] adds to the log satisfies [Q]. *)
Definition issues {A} (Q : ur_call -> Prop) (m : M A) : Prop :=
  forall t, exists ext,
    (m t).2 = t ++ ext /\ Forall (fun ev => Q (ev_call ev)) ext.

(** ** What an import does before and at its first backend call *)

Definition unsupported_backend_error : exn :=
  sycl_exception errc_runtime "getUrPlugin: Unsupported backend "
                 (Some PI_ERROR_INVALID_OPERATION).

Definition compute_index_rejected : exn :=
  sycl_exception errc_invalid
    "Queue create using make_queue cannot have compute_index property." None.

Definition import_backend (op : import_op) : backend :=
  match op with
  | import_platform _ b | import_device _ b | import_context _ _ b
  | import_queue _ _ _ _ _ _ _ b | import_event _ _ _ b
  | import_kernel_bundle _ _ _ _ b | import_kernel _ _ _ _ b => b
  end.

(** The checks an operation makes before any backend call, in the order of
    the source, and the exception of the first one that fails. *)
Definition preflight (op : import_op) : option exn :=
  if negb (supported_backend (import_backend op))
  then Some unsupported_backend_error
  else
    match op with
    | import_queue _ _ _ _ _ PropList _ _ =>
        if has_compute_index PropList then Some compute_index_rejected
        else None
    | import_kernel _ KB _ _ Backend =>
        if decide (Backend = backend_ext_oneapi_level_zero /\
                   length (bundle_images KB) <> 1%nat)
        then Some single_image_expected
        else None
    | _ => None
    end.

(** The create-from-native-handle call of each operation, with the
    arguments the source passes. *)
Definition create_call (createUrQueueFlags : property_list -> QueueOrder -> Z)
    (op : import_op) : ur_call :=
  match op with
  | import_platform h _ => urPlatformCreateWithNativeHandle h None
  | import_device h _ => urDeviceCreateWithNativeHandle h nullptr None
  | import_context h _ _ =>
      urContextCreateWithNativeHandle h 0 nullptr
        (Some {| isNativeHandleOwned := false |})
  | import_queue h desc Ctx Dev keep PropList _ _ =>
      urQueueCreateWithNativeHandle h (context_handle Ctx)
        (match Dev with Some d => device_handle d | None => nullptr end)
        (Some {| queue_isNativeHandleOwned := negb keep;
                 queue_flags :=
                   createUrQueueFlags PropList
                     (if has_in_order PropList then Ordered else OOO);
                 queue_pNativeData := desc |})
  | import_event h Ctx keep _ =>
      urEventCreateWithNativeHandle h (context_handle Ctx)
        (Some {| isNativeHandleOwned := negb keep |})
  | import_kernel_bundle h Ctx keep _ _ =>
      urProgramCreateWithNativeHandle h (context_handle Ctx)
        (Some {| isNativeHandleOwned := negb keep |})
  | import_kernel Ctx KB h keep Backend =>
      urKernelCreateWithNativeHandle h (context_handle Ctx)
        (if decide (Backend = backend_ext_oneapi_level_zero)
         then match bundle_images KB with
              | DeviceImage :: _ => get_ur_program_ref DeviceImage
              | [] => nullptr
              end
         else nullptr)
        (Some {| isNativeHandleOwned := negb keep |})
  end.

(** The backend handle a managed object wraps; a kernel bundle wraps its
    images instead. *)
Definition managed_handle (o : managed_object) : option ur_handle :=
  match o with
  | ManagedPlatform p => Some (platform_handle p)
  | ManagedDevice d => Some (device_handle d)
  | ManagedContext c => Some (context_handle c)
  | ManagedQueue q => Some (queue_handle q)
  | ManagedEvent e => Some (event_handle e)
  | ManagedKernel k => Some (kernel_handle k)
  | ManagedKernelBundle _ => None
  end.

(** The backend a managed object records, for the kinds that record one
    through their context. *)
Definition managed_context (o : managed_object) : option context :=
  match o with
  | ManagedContext c => Some c
  | ManagedQueue q => Some (queue_context q)
  | ManagedEvent e => Some (event_context e)
  | ManagedKernel k => Some (kernel_context k)
  | ManagedKernelBundle b => Some (bundle_context b)
  | ManagedPlatform _ | ManagedDevice _ => None
  end.

(** The context an operation is given. *)
Definition import_context_arg (op : import_op) : option context :=
  match op with
  | import_queue _ _ Ctx _ _ _ _ _ | import_event _ Ctx _ _
  | import_kernel_bundle _ Ctx _ _ _ | import_kernel Ctx _ _ _ _ => Some Ctx
  | _ => None
  end.

#[global] Instance pi_platform_backend_eq_dec : EqDecision pi_platform_backend.
Proof. solve_decision. Defined.
#[global] Instance ur_platform_backend_eq_dec : EqDecision ur_platform_backend_t.
Proof. solve_decision. Defined.

(** The platform tags of each generation whose backend [getUrPlugin] has a
    plugin for. *)
Definition ur_tags_with_plugin : list ur_platform_backend_t :=
  [UR_PLATFORM_BACKEND_LEVEL_ZERO; UR_PLATFORM_BACKEND_OPENCL;
   UR_PLATFORM_BACKEND_CUDA; UR_PLATFORM_BACKEND_HIP].

Definition pi_tags_with_plugin : list pi_platform_backend :=
  [PI_EXT_PLATFORM_BACKEND_LEVEL_ZERO; PI_EXT_PLATFORM_BACKEND_OPENCL;
   PI_EXT_PLATFORM_BACKEND_CUDA; PI_EXT_PLATFORM_BACKEND_HIP].

(** The pairs for which the switch of the per-device loop does nothing and
    goes on: the request is already met, nothing was asked of a program
    without binary, or the binary type is not one the switch knows. *)
Definition settled (bt : ur_program_binary_type_t) (st : bundle_state) : bool :=
  match bt, st with
  | UR_PROGRAM_BINARY_TYPE_NONE, bundle_state_input => true
  | (UR_PROGRAM_BINARY_TYPE_COMPILED_OBJECT | UR_PROGRAM_BINARY_TYPE_LIBRARY),
    bundle_state_object => true
  | UR_PROGRAM_BINARY_TYPE_EXECUTABLE, bundle_state_executable => true
  | UR_PROGRAM_BINARY_TYPE_other _, _ => true
  | _, _ => false
  end.

(** The compile, build and link calls that can serve a requested state. *)
Definition serves (st : bundle_state) (c : ur_call) : Prop :=
  match st with
  | bundle_state_input => False
  | bundle_state_object => is_compile_call c = true
  | bundle_state_executable => is_build_call c || is_link_call c = true
  end.


(** ** The per-device loop seen in the log *)

(** The exception an outcome carries, if it is one. *)
Definition thrown {A} (o : outcome A) : option exn :=
  match o with
  | Throw e => Some e
  | Ok _ => None
  end.



(** How one iteration of the loop shows in a log: after the query [q],
    answered from the log [before], come the calls [ops] of the switch run
    on the reported binary type, and then either the next device's query,
    on the program the switch left, or nothing; a throwing switch ends the
    log and is the exception of the whole run. *)
Definition follows_switch (Plugin : plugin) (ContextImpl : context)
    (State : bundle_state) (before : log) (q : event_log_entry)
    (Dev UrProgram : ur_handle) (post : list event_log_entry)
    (err : option exn) : Prop :=
  q = entry Plugin before (urProgramGetBuildInfo UrProgram Dev) /\
  exists ops rest,
    (reconcile_switch Plugin ContextImpl State Dev
       (out_binary_type (ev_reply q)) UrProgram (before ++ [q])).2
    = (before ++ [q]) ++ ops /\
    post = ops ++ rest /\
    match (reconcile_switch Plugin ContextImpl State Dev
             (out_binary_type (ev_reply q)) UrProgram (before ++ [q])).1 with
    | Ok UrProgram' =>
        match rest with
        | [] => True
        | next :: _ =>
            exists Dev', ev_call next = urProgramGetBuildInfo UrProgram' Dev'
        end
    | Throw e => rest = [] /\ err = Some e
    end.


(** [Dev] is one of the devices the backend reported for the program: the
    log [pre] holds the two [urProgramGetInfo] queries, and [Dev] is in the
    vector they filled. *)
Definition reported_device (Dev : ur_handle) (pre : list event_log_entry)
  : Prop :=
  exists eN eD p szN szD,
    eN ∈ pre /\ eD ∈ pre /\
    ev_call eN = urProgramGetInfo p UR_PROGRAM_INFO_NUM_DEVICES szN /\
    ev_call eD = urProgramGetInfo p UR_PROGRAM_INFO_DEVICES szD /\
    Dev ∈ resize (default 0%nat (out_uint32 (ev_reply eN))) nullptr
                 (out_devices (ev_reply eD)).

(** ** Platform tags *)

(** Negation of C4 at a tag outside the named ones: [convertBackend] throws
    there instead of returning the sentinel. *)
Lemma convertBackend_unrecognized_throws :
  convertBackend (PI_EXT_PLATFORM_BACKEND_other 7)
    = Throw (runtime_error "convertBackend: Unsupported backend"
                           PI_ERROR_INVALID_OPERATION)
  /\ ~ (forall PiBackend, exists b, convertBackend PiBackend = Ok b).
Proof.
  split; [reflexivity|].
  intros H. destruct (H (PI_EXT_PLATFORM_BACKEND_other 7)) as [b Hb].
  discriminate Hb.
Qed.

(** C4, amended.  [convertUrBackend] returns a backend for every tag and
    maps every tag without a case label to [backend::all];
    [convertBackend] returns a backend exactly for the seven tags it names,
    [PI_EXT_PLATFORM_BACKEND_UNKNOWN] going to [backend::all], and throws a
    runtime error for every other tag. *)
Theorem convert_backend_totality :
  (forall UrBackend, exists b, convertUrBackend UrBackend = b /\
      forall raw, UrBackend = UR_PLATFORM_BACKEND_other raw -> b = backend_all)
  /\ convertBackend PI_EXT_PLATFORM_BACKEND_UNKNOWN = Ok backend_all
  /\ (forall PiBackend,
        (exists b, convertBackend PiBackend = Ok b) <->
        (forall raw, PiBackend <> PI_EXT_PLATFORM_BACKEND_other raw))
  /\ (forall raw,
        convertBackend (PI_EXT_PLATFORM_BACKEND_other raw)
          = Throw (runtime_error "convertBackend: Unsupported backend"
                                 PI_ERROR_INVALID_OPERATION)).
Proof.
  repeat split.
  - intros u. exists (convertUrBackend u). split; [reflexivity|].
    intros raw ->. reflexivity.
  - intros [b Hb] raw ->. discriminate Hb.
  - intros Hn. destruct PiBackend; simpl; eauto.
    exfalso. exact (Hn raw eq_refl).
Qed.

(** ** Stepping through the monad *)

Lemma bind_Ok {A B} (m : M A) (k : A -> M B) t a t' :
  m t = (Ok a, t') -> bind m k t = k a t'.
Proof. unfold bind. intros ->. reflexivity. Qed.

Lemma bind_Throw {A B} (m : M A) (k : A -> M B) t e t' :
  m t = (Throw e, t') -> bind m k t = (Throw e, t').
Proof. unfold bind. intros ->. reflexivity. Qed.

Lemma bind_inv {A B} (m : M A) (k : A -> M B) t r t' :
  bind m k t = (r, t') ->
  (exists a t1, m t = (Ok a, t1) /\ k a t1 = (r, t')) \/
  (exists e, m t = (Throw e, t') /\ r = Throw e).
Proof.
  unfold bind. destruct (m t) as [[a|e] t1]; intros H.
  - left. eauto.
  - right. inversion H; subst. eauto.
Qed.

Lemma bind_ret_l {A B} (a : A) (k : A -> M B) : bind (ret a) k = k a.
Proof. reflexivity. Qed.

Lemma call_nocheck_eq Plugin c t :
  call_nocheck Plugin c t = (Ok (Plugin t c), t ++ [entry Plugin t c]).
Proof. reflexivity. Qed.

Lemma call_eq Plugin c t :
  call Plugin c t =
    (match rep_result (Plugin t c) with
     | UR_RESULT_SUCCESS => Ok (Plugin t c)
     | res => Throw (ur_call_failed errc_runtime res)
     end, t ++ [entry Plugin t c]).
Proof.
  unfold call, bind. rewrite call_nocheck_eq.
  destruct (rep_result (Plugin t c)); reflexivity.
Qed.

Lemma call_Ok_inv Plugin c t r t' :
  call Plugin c t = (Ok r, t') ->
  r = Plugin t c /\ rep_result r = UR_RESULT_SUCCESS /\
  t' = t ++ [entry Plugin t c].
Proof.
  rewrite call_eq. destruct (rep_result (Plugin t c)) eqn:E; intros H;
    inversion H; subst; auto.
Qed.

Lemma checkUrResult_eq ec res t :
  checkUrResult ec res t =
    (if decide (res = UR_RESULT_SUCCESS) then Ok tt
     else Throw (ur_call_failed ec res), t).
Proof. destruct res; reflexivity. Qed.

(** ** The per-device switch *)


(** The fallback on the switch alone: the log of an operation is the
    modern call, followed by the legacy call exactly when the modern one
    answers unsupported-feature; the last answer is checked as a build
    result. *)
Lemma reconcile_switch_fallback Plugin ContextImpl State Dev BinaryType UrProgram t op :
  spec_action BinaryType State = Some (act_run op) ->
  let res := reconcile_switch Plugin ContextImpl State Dev BinaryType UrProgram t in
  let e1 := entry Plugin t (modern_call op ContextImpl Dev UrProgram) in
  let UrProgram1 := program_after op UrProgram (ev_reply e1) in
  let e2 := entry Plugin (t ++ [e1]) (legacy_call op ContextImpl UrProgram1) in
  if decide (rep_result (ev_reply e1) = UR_RESULT_ERROR_UNSUPPORTED_FEATURE)
  then res.2 = t ++ [e1; e2] /\
       res.1 = build_checked (rep_result (ev_reply e2))
                 (program_after op UrProgram1 (ev_reply e2))
  else res.2 = t ++ [e1] /\
       res.1 = build_checked (rep_result (ev_reply e1)) UrProgram1.
Proof.
  intros Ha.
  destruct BinaryType, State; simpl in Ha; inversion Ha; subst; clear Ha;
    unfold reconcile_switch; simpl;
    rewrite (bind_Ok _ _ _ _ _ (call_nocheck_eq _ _ _));
    unfold entry; simpl;
    match goal with
    | |- context [decide (rep_result ?r = UR_RESULT_ERROR_UNSUPPORTED_FEATURE)] =>
        destruct (decide (rep_result r = UR_RESULT_ERROR_UNSUPPORTED_FEATURE))
          as [Hu|Hu]
    end; unfold bind; simpl;
    rewrite ?checkUrResult_eq; simpl;
    match goal with
    | |- context [decide (?x = UR_RESULT_SUCCESS)] =>
        destruct (decide (x = UR_RESULT_SUCCESS)) as [Hs|Hs]
    end; simpl; rewrite <- ?app_assoc; simpl;
    (split; [reflexivity|]);
    unfold build_checked;
    try (rewrite Hs; reflexivity);
    match goal with
    | |- _ = match ?x with _ => _ end => destruct x; congruence
    end.
Qed.

(** ** Rules for [issues] *)

Lemma issues_ret {A} Q (a : A) : issues Q (ret a).
Proof. intros t. exists []. rewrite app_nil_r. split; [reflexivity|constructor]. Qed.

Lemma issues_throw {A} Q e : issues Q (@throw A e).
Proof. intros t. exists []. rewrite app_nil_r. split; [reflexivity|constructor]. Qed.

Lemma issues_bind {A B} Q (m : M A) (k : A -> M B) :
  issues Q m -> (forall a, issues Q (k a)) -> issues Q (bind m k).
Proof.
  intros Hm Hk t. unfold bind.
  destruct (Hm t) as [e1 [E1 F1]].
  destruct (m t) as [[a|e] t1]; simpl in E1; subst t1.
  - destruct (Hk a (t ++ e1)) as [e2 [E2 F2]].
    exists (e1 ++ e2). rewrite E2, app_assoc. split; [reflexivity|].
    apply Forall_app; auto.
  - exists e1. auto.
Qed.

Lemma issues_call_nocheck (Q : ur_call -> Prop) Plugin c :
  Q c -> issues Q (call_nocheck Plugin c).
Proof.
  intros Hc t. exists [entry Plugin t c]. split; [reflexivity|].
  repeat constructor. exact Hc.
Qed.

Lemma issues_checkUrResult Q ec res : issues Q (checkUrResult ec res).
Proof. destruct res; [apply issues_ret|apply issues_throw..]. Qed.

Lemma issues_call (Q : ur_call -> Prop) Plugin c :
  Q c -> issues Q (call Plugin c).
Proof.
  intros Hc. unfold call.
  apply issues_bind; [by apply issues_call_nocheck|intros r].
  apply issues_bind; [apply issues_checkUrResult|intros _; apply issues_ret].
Qed.

Lemma issues_getUrPlugin Q pi Backend : issues Q (getUrPlugin pi Backend).
Proof. destruct Backend; first [apply issues_ret|apply issues_throw]. Qed.

Ltac issues_steps :=
  repeat first
    [ apply issues_ret | apply issues_throw | apply issues_checkUrResult
    | apply issues_getUrPlugin
    | apply issues_bind; [|intros ?]
    | apply issues_call | apply issues_call_nocheck
    | match goal with
      | |- issues _ (if ?b then _ else _) => destruct b
      | |- issues _ (match ?x with _ => _ end) => destruct x
      end ].

Lemma issues_reconcile_switch (Q : ur_call -> Prop) Plugin ctx State Dev bt p :
  (forall c, is_device_op_call c = true -> Q c) ->
  issues Q (reconcile_switch Plugin ctx State Dev bt p).
Proof.
  intros HQ. unfold reconcile_switch.
  issues_steps; apply HQ; reflexivity.
Qed.

Lemma issues_reconcile_devices (Q : ur_call -> Prop) Plugin ctx State devs :
  (forall c, is_reconcile_call c = true -> Q c) ->
  forall p, issues Q (reconcile_devices Plugin ctx State devs p).
Proof.
  intros HQ. induction devs as [|Dev rest IH]; intros p; simpl.
  - apply issues_ret.
  - apply issues_bind; [|intros p'; apply IH].
    unfold reconcile_device.
    apply issues_bind; [apply issues_call, HQ; reflexivity|intros r].
    apply issues_reconcile_switch. intros c Hc. apply HQ.
    unfold is_reconcile_call. rewrite Hc. apply orb_true_r.
Qed.

(** ** Ownership transfer *)

(** Negation of C3 at [make_platform]: its create call carries a null
    properties pointer, so no ownership property at all, and the operation
    has no [KeepOwnership] argument. *)
Lemma make_platform_passes_no_ownership :
  exists ev,
    (run_import (fun _ => sim_plugin [] UR_PROGRAM_BINARY_TYPE_NONE)
       sim_platform_of (fun _ _ => 0)
       (import_platform 9 backend_opencl) []).2 = [ev] /\
    ev_call ev = urPlatformCreateWithNativeHandle 9 None /\
    ~ (exists keep,
         caller_KeepOwnership (import_platform 9 backend_opencl) = Some keep /\
         ownership_property (ev_call ev) = Some (Some (negb keep))).
Proof.
  eexists. split; [reflexivity|]. split; [reflexivity|].
  intros [keep [H _]]. discriminate H.
Qed.

Lemma issues_run_import pi gp fl op :
  issues (fun c => is_create_call c = true ->
                   ownership_property c = Some (passed_ownership op))
         (run_import pi gp fl op).
Proof.
  destruct op; simpl;
    unfold make_platform, make_device, make_context, make_queue, make_event,
      make_kernel_bundle, make_kernel.
  all: issues_steps.
  all: try (apply issues_reconcile_devices; intros c Hc;
            destruct c; try discriminate Hc; intros Hn; discriminate Hn).
  all: try (intros Hn; first [reflexivity|discriminate Hn]).
Qed.

(** C3, amended.  Every create-from-native-handle call an import operation
    issues carries the ownership property of the operation: [make_queue],
    [make_event], [make_kernel_bundle] and [make_kernel] pass
    [isNativeHandleOwned = !KeepOwnership]; [make_platform] and
    [make_device] pass a null properties pointer; [make_context], which has
    no [KeepOwnership] argument, passes [isNativeHandleOwned = false]. *)
Theorem ownership_passed_to_create pi gp fl op t ext ev :
  (run_import pi gp fl op t).2 = t ++ ext ->
  ev ∈ ext ->
  is_create_call (ev_call ev) = true ->
  ownership_property (ev_call ev) = Some (passed_ownership op)
  /\ (forall keep, caller_KeepOwnership op = Some keep ->
        passed_ownership op = Some (negb keep)).
Proof.
  intros Hrun Hin Hc. split.
  - destruct (issues_run_import pi gp fl op t) as [ext' [E F]].
    rewrite Hrun in E. apply app_inv_head in E. subst ext'.
    rewrite Forall_forall in F. exact (F ev Hin Hc).
  - intros keep Hk. destruct op; simpl in *; congruence.
Qed.

Lemma ownership_passed_to_create_witness :
  ownership_property
    (urQueueCreateWithNativeHandle 9 50 nullptr
       (Some {| queue_isNativeHandleOwned := false; queue_flags := 0;
                queue_pNativeData := 3 |}))
    = Some (Some false)
  /\ (forall keep, Some true = Some keep -> Some false = Some (negb keep)).
Proof.
  exact (ownership_passed_to_create
           (fun _ => sim_plugin [] UR_PROGRAM_BINARY_TYPE_NONE)
           sim_platform_of (fun _ _ => 0)
           (import_queue 9 3 (sim_context backend_opencl) None true [in_order] 0
              backend_opencl)
           [] _ _ eq_refl ltac:(left) eq_refl).
Defined.

Lemma getUrPlugin_supported pi Backend t :
  supported_backend Backend = true ->
  getUrPlugin pi Backend t = (Ok (pi Backend), t).
Proof. destruct Backend; intros H; try discriminate H; reflexivity. Qed.

Lemma getUrPlugin_unsupported pi Backend t :
  supported_backend Backend = false ->
  getUrPlugin pi Backend t =
    (Throw (sycl_exception errc_runtime "getUrPlugin: Unsupported backend "
                           (Some PI_ERROR_INVALID_OPERATION)), t).
Proof. destruct Backend; intros H; try discriminate H; reflexivity. Qed.

(** ** make_queue and the compute-index property *)

(** Negation of C7 at an unsupported backend: with the compute-index
    property and [backend::all], [make_queue] fails in [getUrPlugin], with
    an [errc::runtime] error and not the [errc::invalid] one. *)
Lemma make_queue_compute_index_unsupported_backend :
  has_compute_index [compute_index 1] = true
  /\ make_queue (fun _ => sim_plugin [] UR_PROGRAM_BINARY_TYPE_NONE)
       (fun _ _ => 0) 9 0 (sim_context backend_all) None false
       [compute_index 1] 0 backend_all []
     = (Throw (sycl_exception errc_runtime "getUrPlugin: Unsupported backend "
                              (Some PI_ERROR_INVALID_OPERATION)), [])
  /\ sycl_exception errc_runtime "getUrPlugin: Unsupported backend "
                    (Some PI_ERROR_INVALID_OPERATION)
     <> sycl_exception errc_invalid
          "Queue create using make_queue cannot have compute_index property."
          None.
Proof. split; [reflexivity|]. split; [reflexivity|]. discriminate. Qed.

(** C7, amended.  For every property list containing the compute-index
    property, [make_queue] fails without issuing any backend call: with the
    [errc::invalid] error when the backend is one of the four
    [getUrPlugin] supports, and with the unsupported-backend
    [errc::runtime] error of [getUrPlugin] otherwise. *)
Theorem make_queue_rejects_compute_index
    pi fl NativeHandle NativeHandleDesc Ctx Dev KeepOwnership PropList Handler
    Backend t :
  has_compute_index PropList = true ->
  make_queue pi fl NativeHandle NativeHandleDesc Ctx Dev KeepOwnership PropList
             Handler Backend t
  = (Throw
       (if supported_backend Backend
        then sycl_exception errc_invalid
               "Queue create using make_queue cannot have compute_index property."
               None
        else sycl_exception errc_runtime "getUrPlugin: Unsupported backend "
               (Some PI_ERROR_INVALID_OPERATION)),
     t).
Proof.
  intros Hp. unfold make_queue.
  destruct (supported_backend Backend) eqn:Hs.
  - rewrite (bind_Ok _ _ _ _ _ (getUrPlugin_supported pi Backend t Hs)).
    rewrite Hp. reflexivity.
  - rewrite (bind_Throw _ _ _ _ _ (getUrPlugin_unsupported pi Backend t Hs)).
    reflexivity.
Qed.

Lemma make_queue_rejects_compute_index_witness :
  make_queue (fun _ => sim_plugin [] UR_PROGRAM_BINARY_TYPE_NONE)
    (fun _ _ => 0) 9 0 (sim_context backend_ext_oneapi_cuda) None false
    [in_order; compute_index 2] 0 backend_ext_oneapi_cuda []
  = (Throw (sycl_exception errc_invalid
              "Queue create using make_queue cannot have compute_index property."
              None), []).
Proof.
  exact (make_queue_rejects_compute_index
           (fun _ => sim_plugin [] UR_PROGRAM_BINARY_TYPE_NONE) (fun _ _ => 0)
           9 0 (sim_context backend_ext_oneapi_cuda) None false
           [in_order; compute_index 2] 0 backend_ext_oneapi_cuda [] eq_refl).
Defined.

(** ** make_kernel and the single device image *)

Lemma issues_make_kernel_null_program pi Ctx KB h keep Backend :
  Backend <> backend_ext_oneapi_level_zero ->
  issues (fun c => forall hn hc hp props,
            c = urKernelCreateWithNativeHandle hn hc hp props -> hp = nullptr)
         (make_kernel pi Ctx KB h keep Backend).
Proof.
  intros Hb. unfold make_kernel.
  destruct (decide (Backend = backend_ext_oneapi_level_zero)); [done|].
  apply issues_bind; [apply issues_getUrPlugin|intros Plugin].
  rewrite bind_ret_l.
  issues_steps; intros hn hc hp props E; inversion E; reflexivity.
Qed.

(** C10.  With the Level Zero backend, a bundle whose number of device
    images is not one makes [make_kernel] throw the [errc::runtime]
    single-image error before any backend call.  With any other backend the
    images of the bundle are not looked at: the calls issued, their answers
    and the outcome (the exception, or the handle and context of the
    kernel) are the same for every bundle, and every kernel-create call
    issued carries a null program handle; for the other supported backends
    that call is the first one issued. *)
Theorem make_kernel_image_check pi Ctx KB h keep Backend t :
  (Backend = backend_ext_oneapi_level_zero ->
   length (bundle_images KB) <> 1%nat ->
   make_kernel pi Ctx KB h keep Backend t = (Throw single_image_expected, t))
  /\ (Backend <> backend_ext_oneapi_level_zero ->
      (forall KB',
         (make_kernel pi Ctx KB' h keep Backend t).2
           = (make_kernel pi Ctx KB h keep Backend t).2 /\
         same_kernel_outcome (make_kernel pi Ctx KB' h keep Backend t).1
                             (make_kernel pi Ctx KB h keep Backend t).1) /\
      (forall ext ev hn hc hp props,
         (make_kernel pi Ctx KB h keep Backend t).2 = t ++ ext ->
         ev ∈ ext ->
         ev_call ev = urKernelCreateWithNativeHandle hn hc hp props ->
         hp = nullptr) /\
      (supported_backend Backend = true ->
       exists rest,
         (make_kernel pi Ctx KB h keep Backend t).2
         = t ++ entry (pi Backend) t
                  (urKernelCreateWithNativeHandle h (context_handle Ctx) nullptr
                     (Some {| isNativeHandleOwned := negb keep |})) :: rest)).
Proof.
  split.
  - intros -> Hn. unfold make_kernel. simpl.
    rewrite (bind_Ok _ _ _ (pi backend_ext_oneapi_level_zero) t eq_refl).
    destruct (decide (length (bundle_images KB) <> 1%nat)); [reflexivity|done].
  - intros Hb. split; [|split].
    + intros KB'. unfold make_kernel.
      destruct (decide (Backend = backend_ext_oneapi_level_zero)); [done|].
      unfold bind.
      destruct (getUrPlugin pi Backend t) as [[P|x] t1]; [|by split].
      simpl. destruct (call P _ t1) as [[r|x] t2]; [|by split].
      destruct (decide (Backend = backend_opencl)); [|by split].
      destruct (call P _ t2) as [[r'|x] t3]; by split.
    + intros ext ev hn hc hp props Hrun Hin Hc.
      destruct (issues_make_kernel_null_program pi Ctx KB h keep Backend Hb t)
        as [ext' [E F]].
      rewrite Hrun in E. apply app_inv_head in E. subst ext'.
      rewrite Forall_forall in F. exact (F ev Hin hn hc hp props Hc).
    + intros Hs. unfold make_kernel.
      rewrite (bind_Ok _ _ _ _ _ (getUrPlugin_supported pi Backend t Hs)).
      destruct (decide (Backend = backend_ext_oneapi_level_zero)); [done|].
      unfold bind at 1. simpl. unfold bind at 1. rewrite call_eq.
      destruct (rep_result _) eqn:Er.
      * destruct (decide (Backend = backend_opencl)).
        -- unfold bind. rewrite call_eq.
           destruct (rep_result (pi Backend _ (urKernelRetain _)));
             simpl; rewrite <- app_assoc; eexists; reflexivity.
        -- simpl. eexists. reflexivity.
      * eexists. reflexivity.
      * eexists. reflexivity.
Qed.

Lemma make_kernel_image_check_witness :
  make_kernel (fun _ => sim_plugin [] UR_PROGRAM_BINARY_TYPE_NONE)
    (sim_context backend_ext_oneapi_level_zero)
    (sim_empty_bundle (sim_context backend_ext_oneapi_level_zero))
    9 false backend_ext_oneapi_level_zero []
  = (Throw single_image_expected, []).
Proof.
  apply (make_kernel_image_check
           (fun _ => sim_plugin [] UR_PROGRAM_BINARY_TYPE_NONE)
           (sim_context backend_ext_oneapi_level_zero)
           (sim_empty_bundle (sim_context backend_ext_oneapi_level_zero))
           9 false backend_ext_oneapi_level_zero []).
  - reflexivity.
  - simpl. lia.
Defined.

(** ** getNativeMem *)

Lemma find_requirement_absent (Req : Z) (l : list (Z * ur_handle)) :
  (forall mem, (Req, mem) ∉ l) ->
  find (fun Elem : Z * ur_handle => Z.eqb (fst Elem) Req) l = None.
Proof.
  induction l as [|[r m] l IH]; intros Hn; [reflexivity|].
  simpl. destruct (Z.eqb_spec r Req) as [->|Hne].
  - exfalso. apply (Hn m). left.
  - apply IH. intros mem Hin. apply (Hn mem). by right.
Qed.

Lemma find_requirement_first (Req : Z) pre mem post :
  Req ∉ pre.*1 ->
  find (fun Elem : Z * ur_handle => Z.eqb (fst Elem) Req) (pre ++ (Req, mem) :: post)
  = Some (Req, mem).
Proof.
  induction pre as [|[r m] pre IH]; intros Hn; simpl.
  - by rewrite Z.eqb_refl.
  - destruct (Z.eqb_spec r Req) as [->|Hne].
    + exfalso. apply Hn. left.
    + apply IH. intros Hin. apply Hn. by right.
Qed.

(** C9.  [getNativeMem] looks the requirement up in the captured pairs, in
    order.  If no pair has it, the call throws the invalid-object error and
    the log of backend calls is unchanged.  If a pair has it, exactly one
    backend call is issued, [urMemGetNativeHandle] on the memory object of
    the first such pair and on the bound device, through the plugin of the
    bound queue; a failing call is thrown, a successful one makes the
    function return, and what it returns is the handle the backend wrote.
    Whatever the uninitialised local held plays no part in any of this.
    The interop handle is only read. *)
Theorem getNativeMem_lookup pi IH Req Handle t :
  ((forall mem, (Req, mem) ∉ MMemObjs IH) ->
   getNativeMem pi IH Req Handle t
   = (Throw (invalid_object_error "Invalid memory object used inside interop"
                                  PI_ERROR_INVALID_MEM_OBJECT), t))
  /\ (forall pre mem post,
        MMemObjs IH = pre ++ (Req, mem) :: post ->
        Req ∉ pre.*1 ->
        let Plugin := queue_getPlugin pi (MQueue IH) in
        let c := urMemGetNativeHandle mem (device_handle (MDevice IH)) in
        (getNativeMem pi IH Req Handle t).2 = t ++ [entry Plugin t c] /\
        (rep_result (Plugin t c) <> UR_RESULT_SUCCESS ->
         (getNativeMem pi IH Req Handle t).1
         = Throw (ur_call_failed errc_runtime (rep_result (Plugin t c)))) /\
        (rep_result (Plugin t c) = UR_RESULT_SUCCESS ->
         (exists h, (getNativeMem pi IH Req Handle t).1 = Ok h) /\
         (forall h, out_handle (Plugin t c) = Some h ->
                    (getNativeMem pi IH Req Handle t).1 = Ok h))).
Proof.
  split.
  - intros Hn. unfold getNativeMem.
    by rewrite (find_requirement_absent Req _ Hn).
  - intros pre mem post Hl Hn Plugin c. unfold getNativeMem.
    rewrite Hl, (find_requirement_first Req pre mem post Hn). simpl.
    unfold bind. fold Plugin. fold c. rewrite call_eq.
    destruct (rep_result (Plugin t c)) eqn:Er; simpl.
    + split; [reflexivity|]. split; [done|]. intros _.
      split; [eexists; reflexivity|].
      intros h Hh. unfold written. by rewrite Hh.
    + split; [reflexivity|]. split; [reflexivity|]. discriminate.
    + split; [reflexivity|]. split; [reflexivity|]. discriminate.
Qed.

Lemma getNativeMem_lookup_witness :
  getNativeMem (fun _ => sim_plugin [] UR_PROGRAM_BINARY_TYPE_NONE)
    sim_interop_handle 5 16 []
  = (Throw (invalid_object_error "Invalid memory object used inside interop"
                                 PI_ERROR_INVALID_MEM_OBJECT), [])
  /\ (getNativeMem (fun _ => sim_plugin [] UR_PROGRAM_BINARY_TYPE_NONE)
        sim_interop_handle 2 16 []).2
     = [] ++ [entry (sim_plugin [] UR_PROGRAM_BINARY_TYPE_NONE) []
                (urMemGetNativeHandle 20 101)]
  /\ (getNativeMem (fun _ => sim_plugin [] UR_PROGRAM_BINARY_TYPE_NONE)
        sim_interop_handle 2 16 []).1 = Ok 7.
Proof.
  destruct (getNativeMem_lookup
              (fun _ => sim_plugin [] UR_PROGRAM_BINARY_TYPE_NONE)
              sim_interop_handle 5 16 []) as [Habsent _].
  destruct (getNativeMem_lookup
              (fun _ => sim_plugin [] UR_PROGRAM_BINARY_TYPE_NONE)
              sim_interop_handle 2 16 []) as [_ Hpresent].
  split.
  - apply Habsent. intros mem Hin. simpl in Hin.
    repeat (apply elem_of_cons in Hin as [Hin|Hin]; [inversion Hin|]).
    by apply elem_of_nil in Hin.
  - destruct (Hpresent [(1, 10)] 20 [(2, 30)] eq_refl) as (Hlog & _ & Hok).
    + simpl. intros Hin.
      apply elem_of_cons in Hin as [Hin|Hin]; [discriminate Hin|].
      by apply elem_of_nil in Hin.
    + split; [exact Hlog|].
      exact (proj2 (Hok eq_refl) 7 eq_refl).
Defined.

(** ** The retain correction *)

Lemma count_calls_app f (a b : log) :
  count_calls f (a ++ b) = (count_calls f a + count_calls f b)%nat.
Proof. unfold count_calls. by rewrite filter_app, length_app. Qed.

Lemma count_calls_none f (ext : log) :
  Forall (fun ev => f (ev_call ev) = false) ext -> count_calls f ext = 0%nat.
Proof.
  unfold count_calls. induction 1 as [|ev ext Hev _ IH]; [reflexivity|].
  rewrite filter_cons_False; [exact IH|]. rewrite Hev. discriminate.
Qed.

Lemma log_unchanged_inv {A} (t : list A) x rest : t = t ++ x :: rest -> False.
Proof.
  intros H. rewrite <- (app_nil_r t) in H at 1.
  apply app_inv_head in H. discriminate H.
Qed.

Lemma make_kernel_bundle_eq pi gp h Ctx keep State Backend :
  make_kernel_bundle pi gp h Ctx keep State Backend
  = (Plugin <- getUrPlugin pi Backend ;;
     r <- call Plugin
            (urProgramCreateWithNativeHandle h (context_handle Ctx)
               (Some {| isNativeHandleOwned := negb keep |})) ;;
     (if decide (context_backend Ctx = backend_opencl)
      then call Plugin (urProgramRetain (written nullptr r)) ;;; ret tt
      else ret tt) ;;;
     reconcile_imported gp Plugin Ctx State (written nullptr r))%interop.
Proof. reflexivity. Qed.

Lemma issues_reconcile_imported (Q : ur_call -> Prop) gp Plugin Ctx State p :
  (forall c, is_reconcile_call c = true -> Q c) ->
  (forall a b, Q (urProgramGetInfo p a b)) ->
  issues Q (reconcile_imported gp Plugin Ctx State p).
Proof.
  intros HQ HI. unfold reconcile_imported.
  apply issues_bind; [apply issues_call, HI|intros rn].
  apply issues_bind; [apply issues_call, HI|intros rd].
  apply issues_bind; [by apply issues_reconcile_devices|intros p'].
  apply issues_ret.
Qed.

(** Negation of C6 for [make_kernel_bundle]: the retain follows the backend
    of the target context, not the [Backend] argument.  With a Level Zero
    [Backend] and an OpenCL context one retain is issued; with an OpenCL
    [Backend] and a Level Zero context none is. *)
Lemma make_kernel_bundle_retain_follows_context :
  count_calls is_retain_call
    (make_kernel_bundle (fun _ => sim_plugin [101] UR_PROGRAM_BINARY_TYPE_EXECUTABLE)
       sim_platform_of 9 (sim_context backend_opencl) false
       bundle_state_executable backend_ext_oneapi_level_zero []).2 = 1%nat
  /\ backend_ext_oneapi_level_zero <> backend_opencl
  /\ count_calls is_retain_call
       (make_kernel_bundle (fun _ => sim_plugin [101] UR_PROGRAM_BINARY_TYPE_EXECUTABLE)
          sim_platform_of 9 (sim_context backend_ext_oneapi_level_zero) false
          bundle_state_executable backend_opencl []).2 = 0%nat.
Proof. split; [reflexivity|]. split; [discriminate|reflexivity]. Qed.

(** C6, amended.  Once the create call, the first call of the operation,
    has succeeded: [make_event] issues exactly one retain call, on the
    created event and directly after the create call, if the [Backend]
    argument is OpenCL, and none otherwise; [make_kernel_bundle] issues
    exactly one retain call, on the imported program and directly after the
    create call, if the backend of the target context is OpenCL, and none
    otherwise. *)
Theorem retain_correction pi gp h Ctx keep State Backend t e0 rest :
  succeeded e0 ->
  ((make_event pi h Ctx keep Backend t).2 = t ++ e0 :: rest ->
   ev_call e0 = urEventCreateWithNativeHandle h (context_handle Ctx)
                  (Some {| isNativeHandleOwned := negb keep |}) /\
   count_calls is_retain_call rest
     = (if decide (Backend = backend_opencl) then 1 else 0)%nat /\
   (Backend = backend_opencl ->
    exists e1, rest = [e1] /\
      ev_call e1 = urEventRetain (written nullptr (ev_reply e0))))
  /\ ((make_kernel_bundle pi gp h Ctx keep State Backend t).2 = t ++ e0 :: rest ->
      ev_call e0 = urProgramCreateWithNativeHandle h (context_handle Ctx)
                     (Some {| isNativeHandleOwned := negb keep |}) /\
      count_calls is_retain_call rest
        = (if decide (context_backend Ctx = backend_opencl) then 1 else 0)%nat /\
      (context_backend Ctx = backend_opencl ->
       exists e1 rest', rest = e1 :: rest' /\
         ev_call e1 = urProgramRetain (written nullptr (ev_reply e0)))).
Proof.
  intros Hok. split; intros Hrun.
  - unfold make_event in Hrun.
    destruct (supported_backend Backend) eqn:Hs.
    2:{ rewrite (bind_Throw _ _ _ _ _ (getUrPlugin_unsupported pi _ t Hs)) in Hrun.
        simpl in Hrun. by apply log_unchanged_inv in Hrun. }
    rewrite (bind_Ok _ _ _ _ _ (getUrPlugin_supported pi _ t Hs)) in Hrun.
    unfold bind at 1 in Hrun. rewrite call_eq in Hrun.
    destruct (rep_result (pi Backend t _)) eqn:Er.
    2,3: simpl in Hrun; apply app_inv_head in Hrun; inversion Hrun; subst;
         unfold succeeded in Hok; simpl in Hok; congruence.
    destruct (decide (Backend = backend_opencl)) as [Hb|Hb].
    + unfold bind in Hrun. rewrite call_eq in Hrun.
      assert (Hlog : forall (x : outcome event) (y : log),
                 (x, (t ++ [entry (pi Backend) t
                              (urEventCreateWithNativeHandle h (context_handle Ctx)
                                 (Some {| isNativeHandleOwned := negb keep |}))])
                     ++ y).2 = t ++ e0 :: rest ->
                 e0 :: rest = entry (pi Backend) t
                              (urEventCreateWithNativeHandle h (context_handle Ctx)
                                 (Some {| isNativeHandleOwned := negb keep |})) :: y).
      { intros x y H. simpl in H. rewrite <- app_assoc in H.
        apply app_inv_head in H. simpl in H. by symmetry. }
      destruct (rep_result (pi Backend _ (urEventRetain _)));
        apply Hlog in Hrun; inversion Hrun; subst;
        (split; [reflexivity|]); (split; [reflexivity|]);
        intros _; eexists; split; reflexivity.
    + simpl in Hrun. apply app_inv_head in Hrun. inversion Hrun; subst.
      split; [reflexivity|]. split; [reflexivity|]. intros Hc. done.
  - rewrite make_kernel_bundle_eq in Hrun.
    destruct (supported_backend Backend) eqn:Hs.
    2:{ rewrite (bind_Throw _ _ _ _ _ (getUrPlugin_unsupported pi _ t Hs)) in Hrun.
        simpl in Hrun. by apply log_unchanged_inv in Hrun. }
    rewrite (bind_Ok _ _ _ _ _ (getUrPlugin_supported pi _ t Hs)) in Hrun.
    unfold bind at 1 in Hrun. rewrite call_eq in Hrun.
    destruct (rep_result (pi Backend t _)) eqn:Er.
    2,3: simpl in Hrun; apply app_inv_head in Hrun; inversion Hrun; subst;
         unfold succeeded in Hok; simpl in Hok; congruence.
    set (c0 := urProgramCreateWithNativeHandle _ _ _) in *.
    set (p := written nullptr (pi Backend t c0)) in *.
    assert (Htail : forall t1, exists ext,
               (reconcile_imported gp (pi Backend) Ctx State p t1).2 = t1 ++ ext /\
               count_calls is_retain_call ext = 0%nat).
    { intros t1.
      destruct (issues_reconcile_imported
                  (fun c => is_retain_call c = false) gp (pi Backend) Ctx State p)
        with (t := t1) as [ext [E F]].
      - intros c Hc. destruct c; try discriminate Hc; reflexivity.
      - reflexivity.
      - exists ext. split; [exact E|]. by apply count_calls_none. }
    destruct (decide (context_backend Ctx = backend_opencl)) as [Hb|Hb].
    + unfold bind at 1 in Hrun. unfold bind at 1 in Hrun.
      rewrite call_eq in Hrun.
      destruct (rep_result (pi Backend _ (urProgramRetain _))) eqn:Er1.
      2,3: simpl in Hrun; rewrite <- app_assoc in Hrun;
           apply app_inv_head in Hrun; inversion Hrun; subst;
           (split; [reflexivity|]); (split; [reflexivity|]);
           intros _; eexists; eexists; split; reflexivity.
      simpl in Hrun.
      destruct (Htail ((t ++ [entry (pi Backend) t c0]) ++
                       [entry (pi Backend) (t ++ [entry (pi Backend) t c0])
                          (urProgramRetain p)])) as [ext [E Hc]].
      rewrite E, <- !app_assoc in Hrun. apply app_inv_head in Hrun.
      simpl in Hrun. inversion Hrun; subst.
      split; [reflexivity|]. split.
      * change (count_calls is_retain_call
                  ([entry (pi Backend) (t ++ [entry (pi Backend) t c0])
                      (urProgramRetain p)] ++ ext) = 1%nat).
        by rewrite count_calls_app, Hc.
      * intros _. eexists; eexists; split; reflexivity.
    + rewrite bind_ret_l in Hrun.
      destruct (Htail (t ++ [entry (pi Backend) t c0])) as [ext [E Hc]].
      rewrite E, <- app_assoc in Hrun. apply app_inv_head in Hrun.
      simpl in Hrun. inversion Hrun; subst.
      split; [reflexivity|]. split; [exact Hc|]. intros Hx. done.
Qed.

(** Without a created event there is nothing to retain: when the create
    call fails, [make_event] throws and issues no further call, on OpenCL
    too. *)
Example make_event_failed_create :
  make_event (fun _ => sim_plugin_failing 5) 9 (sim_context backend_opencl)
    false backend_opencl []
  = (Throw (ur_call_failed errc_runtime (UR_RESULT_ERROR_other 5)),
     [entry (sim_plugin_failing 5) []
        (urEventCreateWithNativeHandle 9 50
           (Some {| isNativeHandleOwned := true |}))]).
Proof. reflexivity. Qed.

Lemma retain_correction_witness :
  count_calls is_retain_call
    [entry (sim_plugin [101] UR_PROGRAM_BINARY_TYPE_EXECUTABLE)
       [entry (sim_plugin [101] UR_PROGRAM_BINARY_TYPE_EXECUTABLE) []
          (urEventCreateWithNativeHandle 9 50
             (Some {| isNativeHandleOwned := true |}))]
       (urEventRetain 7)]
  = 1%nat.
Proof.
  exact (proj1 (proj2 (proj1
    (retain_correction
       (fun _ => sim_plugin [101] UR_PROGRAM_BINARY_TYPE_EXECUTABLE)
       sim_platform_of 9 (sim_context backend_opencl) false
       bundle_state_executable backend_opencl []
       (entry (sim_plugin [101] UR_PROGRAM_BINARY_TYPE_EXECUTABLE) []
          (urEventCreateWithNativeHandle 9 50
             (Some {| isNativeHandleOwned := true |})))
       [entry (sim_plugin [101] UR_PROGRAM_BINARY_TYPE_EXECUTABLE)
          [entry (sim_plugin [101] UR_PROGRAM_BINARY_TYPE_EXECUTABLE) []
             (urEventCreateWithNativeHandle 9 50
                (Some {| isNativeHandleOwned := true |}))]
          (urEventRetain 7)]
       eq_refl) eq_refl))).
Defined.

(** ** Reconciliation of an imported program *)

Lemma queried_devices_cons ev (ext : list event_log_entry) :
  queried_devices (ev :: ext)
  = match ev_call ev with
    | urProgramGetBuildInfo _ Dev => Dev :: queried_devices ext
    | _ => queried_devices ext
    end.
Proof. unfold queried_devices. simpl. by destruct (ev_call ev). Qed.

Lemma queried_devices_app (a b : list event_log_entry) :
  queried_devices (a ++ b) = queried_devices a ++ queried_devices b.
Proof. apply omap_app. Qed.

Lemma queried_devices_ops (ext : list event_log_entry) :
  Forall (fun ev => is_device_op_call (ev_call ev) = true) ext ->
  queried_devices ext = [].
Proof.
  induction 1 as [|ev ext Hev _ IH]; [reflexivity|].
  rewrite queried_devices_cons, IH. revert Hev.
  destruct (ev_call ev); intros Hev; try discriminate Hev; reflexivity.
Qed.

Lemma query_accepted_ops State (ext : list event_log_entry) :
  Forall (fun ev => is_device_op_call (ev_call ev) = true) ext ->
  Forall (query_accepted State) ext.
Proof.
  intros H. eapply Forall_impl; [exact H|]. intros ev. unfold query_accepted.
  destruct (ev_call ev); intros Hev Hq; try discriminate Hev; discriminate Hq.
Qed.

Lemma reconcile_switch_Ok Plugin ctx State Dev bt p t p' t' :
  reconcile_switch Plugin ctx State Dev bt p t = (Ok p', t') ->
  (known_binary_type bt = true -> compatible bt State = true)
  /\ exists ext, t' = t ++ ext /\
       Forall (fun ev => is_device_op_call (ev_call ev) = true) ext.
Proof.
  intros Hrun. split.
  - intros Hk. destruct bt, State; try reflexivity; try discriminate Hk;
      discriminate Hrun.
  - destruct (issues_reconcile_switch
                (fun c => is_device_op_call c = true) Plugin ctx State Dev bt p)
      with (t := t) as [ext [E F]]; [auto|].
    rewrite Hrun in E. eauto.
Qed.

Lemma reconcile_devices_Ok Plugin ctx State devs :
  forall p t p' t',
    reconcile_devices Plugin ctx State devs p t = (Ok p', t') ->
    exists ext, t' = t ++ ext /\
      Forall (query_accepted State) ext /\
      queried_devices ext = devs.
Proof.
  induction devs as [|Dev rest IH]; intros p t p' t' Hrun; simpl in Hrun.
  - inversion Hrun; subst. exists []. rewrite app_nil_r. auto.
  - apply bind_inv in Hrun as [(p1 & t1 & Hdev & Hrest)|(e & _ & He)];
      [|discriminate He].
    unfold reconcile_device in Hdev.
    apply bind_inv in Hdev as [(r & t0 & Hcall & Hsw)|(e & _ & He)];
      [|discriminate He].
    apply call_Ok_inv in Hcall as (-> & Hres & ->).
    apply reconcile_switch_Ok in Hsw as (Hcompat & ops & -> & Hops).
    apply IH in Hrest as (ext & -> & Hacc & Hq).
    exists (entry Plugin t (urProgramGetBuildInfo p Dev) :: ops ++ ext).
    split; [by rewrite <- !app_assoc|]. split.
    + constructor; [intros _; exact Hcompat|].
      apply Forall_app. split; [by apply query_accepted_ops|exact Hacc].
    + rewrite queried_devices_cons. simpl.
      rewrite queried_devices_app, (queried_devices_ops ops Hops).
      simpl. by rewrite Hq.
Qed.

Lemma reconcile_imported_Ok gp Plugin Ctx State p t KB t' :
  reconcile_imported gp Plugin Ctx State p t = (Ok KB, t') ->
  let eN := entry Plugin t (urProgramGetInfo p UR_PROGRAM_INFO_NUM_DEVICES 4) in
  let n := default 0%nat (out_uint32 (ev_reply eN)) in
  let eD := entry Plugin (t ++ [eN])
              (urProgramGetInfo p UR_PROGRAM_INFO_DEVICES (8 * Z.of_nat n)) in
  let discovered := resize n nullptr (out_devices (ev_reply eD)) in
  exists rest,
    t' = t ++ eN :: eD :: rest /\
    succeeded eN /\ succeeded eD /\
    Forall (query_accepted State) rest /\
    queried_devices rest = discovered /\
    bundle_devices KB = wrap_device gp Plugin <$> discovered /\
    (forall img, img ∈ bundle_images KB ->
                 image_devices img = bundle_devices KB /\ image_state img = State).
Proof.
  intros Hrun. unfold reconcile_imported in Hrun.
  apply bind_inv in Hrun as [(rn & t0 & Hn & Hrun)|(e & _ & He)];
    [|discriminate He].
  apply call_Ok_inv in Hn as (-> & HnOk & ->).
  apply bind_inv in Hrun as [(rd & t0 & Hd & Hrun)|(e & _ & He)];
    [|discriminate He].
  apply call_Ok_inv in Hd as (-> & HdOk & ->).
  apply bind_inv in Hrun as [(p' & t0 & Hloop & Hret)|(e & _ & He)];
    [|discriminate He].
  apply reconcile_devices_Ok in Hloop as (rest & -> & Hacc & Hq).
  inversion Hret; subst; clear Hret. simpl.
  exists rest. rewrite <- !app_assoc. simpl.
  split; [reflexivity|]. split; [exact HnOk|]. split; [exact HdOk|].
  split; [exact Hacc|]. split; [exact Hq|]. split; [reflexivity|].
  intros img Hin. apply list_elem_of_singleton in Hin. subst img.
  split; reflexivity.
Qed.

Lemma wrap_device_handles gp Plugin (devs : list ur_handle) :
  device_handle <$> (wrap_device gp Plugin <$> devs) = devs.
Proof.
  induction devs as [|d devs IH]; [reflexivity|].
  simpl. f_equal. exact IH.
Qed.

Lemma make_kernel_bundle_Ok pi gp h Ctx keep State Backend t KB t' :
  make_kernel_bundle pi gp h Ctx keep State Backend t = (Ok KB, t') ->
  let Plugin := pi Backend in
  let e0 := entry Plugin t
              (urProgramCreateWithNativeHandle h (context_handle Ctx)
                 (Some {| isNativeHandleOwned := negb keep |})) in
  let p := written nullptr (ev_reply e0) in
  let retain :=
    if decide (context_backend Ctx = backend_opencl)
    then [entry Plugin (t ++ [e0]) (urProgramRetain p)] else [] in
  succeeded e0 /\
  reconcile_imported gp Plugin Ctx State p (t ++ e0 :: retain) = (Ok KB, t').
Proof.
  intros Hrun. rewrite make_kernel_bundle_eq in Hrun.
  destruct (supported_backend Backend) eqn:Hs.
  2:{ rewrite (bind_Throw _ _ _ _ _ (getUrPlugin_unsupported pi _ t Hs)) in Hrun.
      discriminate Hrun. }
  rewrite (bind_Ok _ _ _ _ _ (getUrPlugin_supported pi _ t Hs)) in Hrun.
  apply bind_inv in Hrun as [(r & t0 & Hc & Hrun)|(e & _ & He)];
    [|discriminate He].
  apply call_Ok_inv in Hc as (-> & Hok & ->).
  simpl. split; [exact Hok|].
  destruct (decide (context_backend Ctx = backend_opencl)) as [Hb|Hb].
  - apply bind_inv in Hrun as [(u & t0 & Hr & Hrun)|(e & _ & He)];
      [|discriminate He].
    apply bind_inv in Hr as [(r1 & t1 & Hr & Hret)|(e & _ & He)];
      [|discriminate He].
    apply call_Ok_inv in Hr as (-> & _ & ->). inversion Hret; subst.
    by rewrite <- app_assoc in Hrun.
  - rewrite bind_ret_l in Hrun.
    by rewrite (cons_middle _ t []), app_nil_r.
Qed.

(** Negation of C2 at a binary type outside the four known ones: the
    adapter reports type 42 for the only device, the switch takes its
    default label, and an executable bundle is returned although the
    reported type is compatible with no requested state. *)
Lemma unknown_binary_type_passes :
  exists KB t' ev,
    make_kernel_bundle
      (fun _ => sim_plugin [101] (UR_PROGRAM_BINARY_TYPE_other 42))
      sim_platform_of 9 (sim_context backend_ext_oneapi_level_zero) false
      bundle_state_executable backend_ext_oneapi_level_zero []
    = (Ok KB, t') /\
    ev ∈ t' /\
    ev_call ev = urProgramGetBuildInfo 7 101 /\
    out_binary_type (ev_reply ev) = UR_PROGRAM_BINARY_TYPE_other 42 /\
    compatible (out_binary_type (ev_reply ev)) bundle_state_executable = false.
Proof.
  eexists. eexists.
  exists (entry (sim_plugin [101] (UR_PROGRAM_BINARY_TYPE_other 42)) []
            (urProgramGetBuildInfo 7 101)).
  split; [lazy; reflexivity|].
  split; [|repeat split].
  do 3 apply list_elem_of_further. apply list_elem_of_here.
Qed.

(** C2, amended.  Whenever [make_kernel_bundle] returns a bundle, the binary
    type of every device of the bundle was queried, once each and in the
    order of the bundle's devices, and every answer that is one of the four
    known binary types is compatible with the requested state.  An answer
    outside the four known types is accepted as it is. *)
Theorem reconciled_states_compatible pi gp h Ctx keep State Backend t KB t' :
  make_kernel_bundle pi gp h Ctx keep State Backend t = (Ok KB, t') ->
  exists ext,
    t' = t ++ ext /\
    Forall (query_accepted State) ext /\
    queried_devices ext = device_handle <$> bundle_devices KB.
Proof.
  intros Hrun. apply make_kernel_bundle_Ok in Hrun as [_ Hrun].
  apply reconcile_imported_Ok in Hrun
    as (rest & -> & _ & _ & Hacc & Hq & Hdevs & _).
  eexists. split; [by rewrite <- app_assoc|]. split.
  - apply Forall_app. split.
    + constructor; [intros Hc; discriminate Hc|].
      destruct (decide (context_backend Ctx = backend_opencl));
        repeat constructor; intros Hc; discriminate Hc.
    + constructor; [intros Hc; discriminate Hc|].
      constructor; [intros Hc; discriminate Hc|exact Hacc].
  - rewrite Hdevs, wrap_device_handles.
    rewrite queried_devices_app.
    rewrite !queried_devices_cons. simpl. rewrite Hq.
    destruct (decide (context_backend Ctx = backend_opencl)); reflexivity.
Qed.

Lemma reconciled_states_compatible_witness :
  exists ext,
    (make_kernel_bundle
       (fun _ => sim_plugin_legacy [101; 102] UR_PROGRAM_BINARY_TYPE_LIBRARY)
       sim_platform_of 9 (sim_context backend_opencl) false
       bundle_state_executable backend_opencl []).2 = [] ++ ext /\
    Forall (query_accepted bundle_state_executable) ext /\
    queried_devices ext = [101; 102].
Proof.
  let r := eval lazy in
    (make_kernel_bundle
       (fun _ => sim_plugin_legacy [101; 102] UR_PROGRAM_BINARY_TYPE_LIBRARY)
       sim_platform_of 9 (sim_context backend_opencl) false
       bundle_state_executable backend_opencl []) in
  match r with
  | (Ok ?KB, ?t') =>
      exact (reconciled_states_compatible
               (fun _ => sim_plugin_legacy [101; 102] UR_PROGRAM_BINARY_TYPE_LIBRARY)
               sim_platform_of 9 (sim_context backend_opencl) false
               bundle_state_executable backend_opencl [] KB t' eq_refl)
  end.
Defined.

(** ** The device set of an imported bundle *)

(** C8.  The bundle [make_kernel_bundle] returns has, as its devices and as
    the devices of its device image, the wrappers of exactly the devices the
    backend reported for the imported program: the create call comes first,
    then (after the retain, if any) the two [urProgramGetInfo] queries on
    the program just created, the number of devices and then the devices;
    the bundle's device handles are the reported devices, cut or padded with
    null handles to the reported number, in the reported order, which is
    also the order in which the devices are then reconciled.  No argument
    of the operation is a device set. *)
Theorem bundle_devices_discovered pi gp h Ctx keep State Backend t KB t' :
  make_kernel_bundle pi gp h Ctx keep State Backend t = (Ok KB, t') ->
  exists e0 retain eN eD rest,
    let p := written nullptr (ev_reply e0) in
    let n := default 0%nat (out_uint32 (ev_reply eN)) in
    let discovered := resize n nullptr (out_devices (ev_reply eD)) in
    t' = t ++ e0 :: retain ++ eN :: eD :: rest /\
    e0 = entry (pi Backend) t
           (urProgramCreateWithNativeHandle h (context_handle Ctx)
              (Some {| isNativeHandleOwned := negb keep |})) /\
    Forall (fun ev => ev_call ev = urProgramRetain p) retain /\
    eN = entry (pi Backend) (t ++ e0 :: retain)
           (urProgramGetInfo p UR_PROGRAM_INFO_NUM_DEVICES 4) /\
    eD = entry (pi Backend) (t ++ e0 :: retain ++ [eN])
           (urProgramGetInfo p UR_PROGRAM_INFO_DEVICES (8 * Z.of_nat n)) /\
    succeeded e0 /\ succeeded eN /\ succeeded eD /\
    device_handle <$> bundle_devices KB = discovered /\
    bundle_devices KB = wrap_device gp (pi Backend) <$> discovered /\
    (forall img, img ∈ bundle_images KB ->
                 image_devices img = bundle_devices KB) /\
    queried_devices rest = discovered.
Proof.
  intros Hrun. apply make_kernel_bundle_Ok in Hrun as [Hok Hrun].
  apply reconcile_imported_Ok in Hrun
    as (rest & -> & HN & HD & _ & Hq & Hdevs & Himg).
  eexists _, _, _, _, rest. simpl.
  split; [by rewrite <- app_assoc|].
  split; [reflexivity|].
  split.
  { destruct (decide (context_backend Ctx = backend_opencl));
      repeat constructor. }
  split; [reflexivity|].
  split.
  { rewrite (app_comm_cons _ [_]), app_assoc. reflexivity. }
  split; [exact Hok|]. split; [exact HN|]. split; [exact HD|].
  split; [by rewrite Hdevs, wrap_device_handles|].
  split; [exact Hdevs|].
  split; [|exact Hq].
  intros img Hin. by destruct (Himg img Hin).
Qed.

Lemma bundle_devices_discovered_witness :
  exists e0 retain eN eD rest,
    (make_kernel_bundle
       (fun _ => sim_plugin [101; 102] UR_PROGRAM_BINARY_TYPE_NONE)
       sim_platform_of 9 (sim_context backend_ext_oneapi_cuda) true
       bundle_state_executable backend_ext_oneapi_cuda []).2
    = [] ++ e0 :: retain ++ eN :: eD :: rest /\
    out_devices (ev_reply eD) = [101; 102] /\
    queried_devices rest = [101; 102].
Proof.
  let r := eval lazy in
    (make_kernel_bundle
       (fun _ => sim_plugin [101; 102] UR_PROGRAM_BINARY_TYPE_NONE)
       sim_platform_of 9 (sim_context backend_ext_oneapi_cuda) true
       bundle_state_executable backend_ext_oneapi_cuda []) in
  match r with
  | (Ok ?KB, ?t') =>
      destruct (bundle_devices_discovered
                  (fun _ => sim_plugin [101; 102] UR_PROGRAM_BINARY_TYPE_NONE)
                  sim_platform_of 9 (sim_context backend_ext_oneapi_cuda) true
                  bundle_state_executable backend_ext_oneapi_cuda [] KB t' eq_refl)
        as (e0 & retain & eN & eD & rest & Hlog & He0 & _ & HeN & HeD & _ & _
            & _ & _ & _ & _ & Hq)
  end.
  exists e0, retain, eN, eD, rest.
  split; [exact Hlog|]. split.
  - rewrite HeD. reflexivity.
  - rewrite Hq, HeD, HeN. reflexivity.
Defined.

(** * Further properties of the import operations *)

(** ** Pre-flight checks and the first call *)

Lemma run_import_preflight pi gp fl op t e :
  preflight op = Some e ->
  run_import pi gp fl op t = (Throw e, t).
Proof.
  unfold preflight. intros H.
  destruct (supported_backend (import_backend op)) eqn:Hs; simpl in H.
  - destruct op; simpl in Hs, H; try discriminate H; simpl;
      apply bind_Throw; unfold make_queue, make_kernel;
      rewrite (bind_Ok _ _ _ _ _ (getUrPlugin_supported pi Backend t Hs)).
    + destruct (has_compute_index PropList) eqn:Hp; [|discriminate H].
      inversion H; subst. reflexivity.
    + destruct (decide _) as [[-> Hn]|Hn] in H; [|discriminate H].
      inversion H; subst. apply bind_Throw. simpl.
      destruct (decide (length (bundle_images KernelBundle) <> 1%nat));
        [reflexivity|done].
  - inversion H; subst.
    destruct op; simpl in Hs; simpl; apply bind_Throw;
      unfold make_platform, make_device, make_context, make_queue, make_event,
        make_kernel_bundle, make_kernel;
      apply bind_Throw; by apply getUrPlugin_unsupported.
Qed.

(** X1.  An import operation whose pre-flight checks fail (a backend
    [getUrPlugin] does not support; for a queue, the compute-index
    property; for a Level Zero kernel, a bundle that does not hold exactly
    one device image) throws the exception of the first failing check and
    issues no backend call at all. *)
Theorem preflight_failure pi gp fl op t e :
  preflight op = Some e ->
  run_import pi gp fl op t = (Throw e, t).
Proof. apply run_import_preflight. Qed.

Lemma preflight_failure_witness :
  run_import (fun _ => sim_plugin [] UR_PROGRAM_BINARY_TYPE_NONE)
    sim_platform_of (fun _ _ => 0)
    (import_kernel (sim_context backend_ext_oneapi_level_zero)
       (sim_empty_bundle (sim_context backend_ext_oneapi_level_zero))
       9 true backend_ext_oneapi_level_zero) []
  = (Throw single_image_expected, []).
Proof.
  exact (preflight_failure
           (fun _ => sim_plugin [] UR_PROGRAM_BINARY_TYPE_NONE)
           sim_platform_of (fun _ _ => 0)
           (import_kernel (sim_context backend_ext_oneapi_level_zero)
              (sim_empty_bundle (sim_context backend_ext_oneapi_level_zero))
              9 true backend_ext_oneapi_level_zero) [] _ eq_refl).
Defined.

Lemma bind_ret_map {A B} (m : M A) (f : A -> B) t :
  (bind m (fun x => ret (f x)) t).2 = (m t).2
  /\ (forall e, (m t).1 = Throw e ->
                (bind m (fun x => ret (f x)) t).1 = Throw e)
  /\ (forall b, (bind m (fun x => ret (f x)) t).1 = Ok b ->
                exists a, (m t).1 = Ok a /\ b = f a).
Proof.
  unfold bind. destruct (m t) as [[a|e] t1]; simpl; repeat split;
    try congruence.
  intros b Hb. inversion Hb. eauto.
Qed.

Lemma bind_call_first {A} Plugin c (K : ur_reply -> M A) t :
  (forall r, issues (fun _ => True) (K r)) ->
  exists rest,
    (bind (call Plugin c) K t).2 = t ++ entry Plugin t c :: rest /\
    (rep_result (Plugin t c) <> UR_RESULT_SUCCESS ->
     rest = [] /\
     (bind (call Plugin c) K t).1
       = Throw (ur_call_failed errc_runtime (rep_result (Plugin t c)))).
Proof.
  intros HK. unfold bind. rewrite call_eq.
  destruct (rep_result (Plugin t c)) eqn:Er.
  - destruct (HK (Plugin t c) (t ++ [entry Plugin t c])) as [ext [E _]].
    exists ext. rewrite E, <- app_assoc. split; [reflexivity|]. done.
  - exists []. split; [reflexivity|]. intros _. split; reflexivity.
  - exists []. split; [reflexivity|]. intros _. split; reflexivity.
Qed.

Ltac issues_any :=
  issues_steps;
  try (apply issues_reconcile_devices; intros; exact I);
  try exact I.

Lemma run_import_first_call pi gp fl op t :
  preflight op = None ->
  exists rest,
    (run_import pi gp fl op t).2
    = t ++ entry (pi (import_backend op)) t (create_call fl op) :: rest /\
    (rep_result (pi (import_backend op) t (create_call fl op))
       <> UR_RESULT_SUCCESS ->
     rest = [] /\
     (run_import pi gp fl op t).1
     = Throw (ur_call_failed errc_runtime
                (rep_result (pi (import_backend op) t (create_call fl op))))).
Proof.
  unfold preflight. intros H.
  destruct (supported_backend (import_backend op)) eqn:Hs; [|discriminate H].
  simpl in H.
  assert (Hgen : forall (A : Type) (m : M A) (f : A -> managed_object),
             (exists rest,
                 (m t).2 = t ++ entry (pi (import_backend op)) t
                                  (create_call fl op) :: rest /\
                 (rep_result (pi (import_backend op) t (create_call fl op))
                    <> UR_RESULT_SUCCESS ->
                  rest = [] /\
                  (m t).1 = Throw (ur_call_failed errc_runtime
                     (rep_result (pi (import_backend op) t
                                     (create_call fl op)))))) ->
             exists rest,
               (bind m (fun x => ret (f x)) t).2
               = t ++ entry (pi (import_backend op)) t
                        (create_call fl op) :: rest /\
               (rep_result (pi (import_backend op) t (create_call fl op))
                  <> UR_RESULT_SUCCESS ->
                rest = [] /\
                (bind m (fun x => ret (f x)) t).1
                = Throw (ur_call_failed errc_runtime
                     (rep_result (pi (import_backend op) t
                                     (create_call fl op)))))).
  { intros A m f (rest & E & Hf).
    destruct (bind_ret_map m f t) as (E2 & HT & _).
    exists rest. rewrite E2. split; [exact E|].
    intros Hn. destruct (Hf Hn) as [-> Hthrow]. split; [reflexivity|].
    by apply HT. }
  destruct op; simpl in Hs, H |- *; apply Hgen; clear Hgen;
    cbn [create_call import_backend];
    unfold make_platform, make_device, make_context, make_queue, make_event,
      make_kernel;
    rewrite ?make_kernel_bundle_eq;
    rewrite (bind_Ok _ _ _ _ _ (getUrPlugin_supported pi Backend t Hs)).
  - apply bind_call_first. intros r. issues_any.
  - apply bind_call_first. intros r. issues_any.
  - apply bind_call_first. intros r. issues_any.
  - destruct (has_compute_index PropList); [discriminate H|].
    apply bind_call_first. intros r. issues_any.
  - apply bind_call_first. intros r. issues_any.
  - apply bind_call_first. intros r.
    apply issues_bind; [issues_any|intros _].
    apply issues_reconcile_imported; intros; exact I.
  - destruct (decide (Backend = backend_ext_oneapi_level_zero)) as [Hb|Hb].
    + destruct (decide (length (bundle_images KernelBundle) <> 1%nat))
        as [Hl|Hl].
      * destruct (decide _) as [_|Hn] in H; [discriminate H|].
        exfalso. apply Hn. by split.
      * destruct (bundle_images KernelBundle) as [|img imgs];
          rewrite bind_ret_l; apply bind_call_first; intros r; issues_any.
    + rewrite bind_ret_l. apply bind_call_first. intros r. issues_any.
Qed.

(** X2.  An import operation that passes its pre-flight checks issues its
    create-from-native-handle call first, through the plugin of the
    [Backend] argument and with the arguments of the source: the native
    handle, the context's handle, for a queue the device's handle (null
    without a device), the ordering flag and the native descriptor, for a
    Level Zero kernel the program of the bundle's image (null for the other
    backends).  If that call fails, nothing else is called and the
    operation throws an [errc::runtime] error carrying the native result. *)
Theorem first_call_is_create pi gp fl op t :
  preflight op = None ->
  exists rest,
    (run_import pi gp fl op t).2
    = t ++ entry (pi (import_backend op)) t (create_call fl op) :: rest /\
    (rep_result (pi (import_backend op) t (create_call fl op))
       <> UR_RESULT_SUCCESS ->
     rest = [] /\
     (run_import pi gp fl op t).1
     = Throw (ur_call_failed errc_runtime
                (rep_result (pi (import_backend op) t (create_call fl op))))).
Proof. apply run_import_first_call. Qed.

Lemma first_call_is_create_witness :
  exists rest,
    (run_import (fun _ => sim_plugin_failing 5) sim_platform_of (fun _ _ => 3)
       (import_queue 9 4 (sim_context backend_ext_oneapi_hip) None true
          [in_order] 0 backend_ext_oneapi_hip) []).2
    = [] ++ entry (sim_plugin_failing 5) []
              (urQueueCreateWithNativeHandle 9 50 nullptr
                 (Some {| queue_isNativeHandleOwned := false;
                          queue_flags := 3;
                          queue_pNativeData := 4 |})) :: rest.
Proof.
  destruct (first_call_is_create (fun _ => sim_plugin_failing 5)
              sim_platform_of (fun _ _ => 3)
              (import_queue 9 4 (sim_context backend_ext_oneapi_hip) None true
                 [in_order] 0 backend_ext_oneapi_hip) [] eq_refl)
    as [rest [E _]].
  exists rest. exact E.
Defined.

Ltac ok_step H :=
  let a := fresh "a" in
  let t1 := fresh "t" in
  let H1 := fresh "Hstep" in
  let x := fresh "x" in
  let Hx := fresh "Hx" in
  apply bind_inv in H as [(a & t1 & H1 & H)|(x & _ & Hx)]; [|discriminate Hx].

(** X3.  An import operation that returns an object passed its pre-flight
    checks and had its create call succeed; the object wraps the handle
    that call wrote (null if it wrote none), keeps the context it was given,
    and a context made by [make_context] records the [Backend] argument as
    its backend. *)
Theorem successful_import_wraps_created pi gp fl op t o t' :
  run_import pi gp fl op t = (Ok o, t') ->
  preflight op = None
  /\ rep_result (pi (import_backend op) t (create_call fl op))
     = UR_RESULT_SUCCESS
  /\ (forall h, managed_handle o = Some h ->
        h = written nullptr (pi (import_backend op) t (create_call fl op)))
  /\ (forall c, import_context_arg op = Some c -> managed_context o = Some c)
  /\ (forall c, o = ManagedContext c -> context_backend c = import_backend op).
Proof.
  intros Hrun.
  assert (Hpre : preflight op = None).
  { destruct (preflight op) as [e|] eqn:Hp; [|reflexivity].
    rewrite (run_import_preflight pi gp fl op t e Hp) in Hrun.
    discriminate Hrun. }
  split; [exact Hpre|].
  assert (Hok : rep_result (pi (import_backend op) t (create_call fl op))
                = UR_RESULT_SUCCESS).
  { destruct (run_import_first_call pi gp fl op t Hpre) as (rest & _ & Hf).
    destruct (decide (rep_result (pi (import_backend op) t (create_call fl op))
                      = UR_RESULT_SUCCESS)) as [Hs|Hs]; [exact Hs|].
    destruct (Hf Hs) as [_ Hthrow]. rewrite Hrun in Hthrow.
    discriminate Hthrow. }
  split; [exact Hok|].
  unfold preflight in Hpre.
  destruct (supported_backend (import_backend op)) eqn:Hs; [|discriminate Hpre].
  simpl in Hpre.
  destruct op; simpl in Hs, Hpre, Hok |- *; ok_step Hrun;
    inversion Hrun; subst; clear Hrun;
    unfold make_platform, make_device, make_context, make_queue, make_event,
      make_kernel in Hstep;
    rewrite ?make_kernel_bundle_eq in Hstep;
    rewrite (bind_Ok _ _ _ _ _ (getUrPlugin_supported pi Backend t Hs)) in Hstep.
  - ok_step Hstep. apply call_Ok_inv in Hstep0 as (-> & _ & ->).
    inversion Hstep; subst. simpl.
    repeat split; intros; congruence.
  - ok_step Hstep. apply call_Ok_inv in Hstep0 as (-> & _ & ->).
    inversion Hstep; subst. simpl.
    repeat split; intros; congruence.
  - ok_step Hstep. apply call_Ok_inv in Hstep0 as (-> & _ & ->).
    inversion Hstep; subst. simpl.
    repeat split; intros; try congruence.
    match goal with H : ManagedContext _ = ManagedContext _ |- _ =>
      inversion H; reflexivity end.
  - destruct (has_compute_index PropList); [discriminate Hpre|].
    ok_step Hstep. apply call_Ok_inv in Hstep0 as (-> & _ & ->).
    inversion Hstep; subst. simpl.
    repeat split; intros; congruence.
  - ok_step Hstep. apply call_Ok_inv in Hstep0 as (-> & _ & ->).
    ok_step Hstep. inversion Hstep; subst. simpl.
    repeat split; intros; congruence.
  - ok_step Hstep. apply call_Ok_inv in Hstep0 as (-> & _ & ->).
    ok_step Hstep. unfold reconcile_imported in Hstep.
    do 3 ok_step Hstep. inversion Hstep; subst. simpl.
    repeat split; intros; congruence.
  - ok_step Hstep. ok_step Hstep.
    apply call_Ok_inv in Hstep1 as (-> & _ & ->).
    ok_step Hstep. inversion Hstep; subst. simpl.
    assert (a0 = (if decide (Backend = backend_ext_oneapi_level_zero)
                  then match bundle_images KernelBundle with
                       | DeviceImage :: _ => get_ur_program_ref DeviceImage
                       | [] => nullptr
                       end
                  else nullptr) /\ t0 = t) as [-> ->].
    { destruct (decide (Backend = backend_ext_oneapi_level_zero)).
      - destruct (decide (length (bundle_images KernelBundle) <> 1%nat));
          [discriminate Hstep0|].
        destruct (bundle_images KernelBundle); by inversion Hstep0.
      - by inversion Hstep0. }
    repeat split; intros; congruence.
Qed.

Lemma successful_import_wraps_created_witness :
  managed_handle
    (ManagedEvent {| event_handle := 7;
                     event_context := sim_context backend_opencl |})
  = Some 7
  /\ written nullptr
       (sim_plugin [] UR_PROGRAM_BINARY_TYPE_NONE []
          (urEventCreateWithNativeHandle 9 50
             (Some {| isNativeHandleOwned := true |}))) = 7.
Proof.
  split; [reflexivity|]. symmetry.
  let r := eval lazy in
    (run_import (fun _ => sim_plugin [] UR_PROGRAM_BINARY_TYPE_NONE)
       sim_platform_of (fun _ _ => 0)
       (import_event 9 (sim_context backend_opencl) false backend_opencl) []) in
  match r with
  | (Ok ?o, ?t') =>
      exact (proj1 (proj2 (proj2
               (successful_import_wraps_created
                  (fun _ => sim_plugin [] UR_PROGRAM_BINARY_TYPE_NONE)
                  sim_platform_of (fun _ _ => 0)
                  (import_event 9 (sim_context backend_opencl) false
                     backend_opencl) [] o t' eq_refl))) 7 eq_refl)
  end.
Defined.

(** ** Platform tags and the plugin lookup *)

(** X4.  Resolving the plugin of a converted platform tag succeeds exactly
    for the Level Zero, OpenCL, CUDA and HIP tags of either generation.
    For every other tag that converts (native CPU, the ESIMD emulator, the
    unknown tag and, for the ur generation, any unnamed value) the
    conversion succeeds but [getUrPlugin] then throws its
    unsupported-backend error. *)
Theorem converted_tag_plugin pi t :
  (forall UrBackend,
     getUrPlugin pi (convertUrBackend UrBackend) t
     = if decide (UrBackend ∈ ur_tags_with_plugin)
       then (Ok (pi (convertUrBackend UrBackend)), t)
       else (Throw unsupported_backend_error, t))
  /\ (forall PiBackend b,
        convertBackend PiBackend = Ok b ->
        getUrPlugin pi b t
        = if decide (PiBackend ∈ pi_tags_with_plugin)
          then (Ok (pi b), t)
          else (Throw unsupported_backend_error, t)).
Proof.
  split.
  - intros u. destruct u; reflexivity.
  - intros p b Hb. destruct p; inversion Hb; subst; reflexivity.
Qed.

Lemma converted_tag_plugin_witness :
  getUrPlugin (fun _ => sim_plugin [] UR_PROGRAM_BINARY_TYPE_NONE)
    backend_ext_oneapi_native_cpu []
  = (Throw unsupported_backend_error, []).
Proof.
  exact (proj2 (converted_tag_plugin
                  (fun _ => sim_plugin [] UR_PROGRAM_BINARY_TYPE_NONE) [])
           PI_EXT_PLATFORM_BACKEND_NATIVE_CPU backend_ext_oneapi_native_cpu
           eq_refl).
Defined.

(** X5.  The tag conversions lose no information on the tags they name:
    [convertBackend] sends different tags to different backends, and
    [convertUrBackend] does so for every tag it does not send to
    [backend::all]; neither ever yields a backend value outside the named
    enumerators. *)
Theorem convert_backend_injective :
  (forall p q b, convertBackend p = Ok b -> convertBackend q = Ok b -> p = q)
  /\ (forall u v, convertUrBackend u = convertUrBackend v ->
                  convertUrBackend u <> backend_all -> u = v)
  /\ (forall p raw, convertBackend p <> Ok (backend_other raw))
  /\ (forall u raw, convertUrBackend u <> backend_other raw).
Proof.
  repeat split.
  - intros p q b Hp Hq. destruct p, q; simpl in *; congruence.
  - intros u v H Hn. destruct u, v; simpl in *; congruence.
  - intros p raw. destruct p; discriminate.
  - intros u raw. destruct u; discriminate.
Qed.

(** ** make_kernel *)

(** X6.  Once its create call, the first call of the operation, has
    succeeded, [make_kernel] issues exactly one more call if the backend is
    OpenCL, a [urKernelRetain] on the kernel just created, and no further
    call for any other backend. *)
Theorem make_kernel_retain pi Ctx KB h keep Backend t e0 rest :
  succeeded e0 ->
  (make_kernel pi Ctx KB h keep Backend t).2 = t ++ e0 :: rest ->
  rest = (if decide (Backend = backend_opencl)
          then [entry (pi Backend) (t ++ [e0])
                  (urKernelRetain (written nullptr (ev_reply e0)))]
          else []).
Proof.
  intros Hok Hrun.
  destruct (preflight (import_kernel Ctx KB h keep Backend)) as [e|] eqn:Hp.
  { pose proof (run_import_preflight pi (fun _ _ => {| platform_handle := 0 |})
                  (fun _ _ => 0) _ t e Hp) as Hf.
    simpl in Hf.
    destruct (bind_ret_map (make_kernel pi Ctx KB h keep Backend)
                ManagedKernel t) as (E & _ & _).
    rewrite Hf in E. simpl in E. rewrite <- E in Hrun.
    by apply log_unchanged_inv in Hrun. }
  unfold preflight in Hp. simpl in Hp.
  destruct (supported_backend Backend) eqn:Hs; [|discriminate Hp].
  simpl in Hp. unfold make_kernel in Hrun.
  rewrite (bind_Ok _ _ _ _ _ (getUrPlugin_supported pi Backend t Hs)) in Hrun.
  assert (Hprog : exists p,
             (if decide (Backend = backend_ext_oneapi_level_zero)
              then if decide (length (bundle_images KB) <> 1%nat)
                   then throw single_image_expected
                   else match bundle_images KB with
                        | DeviceImage :: _ => ret (get_ur_program_ref DeviceImage)
                        | [] => ret nullptr
                        end
              else ret nullptr) = ret p).
  { destruct (decide (Backend = backend_ext_oneapi_level_zero)) as [Hb|Hb];
      [|by eexists].
    destruct (decide (length (bundle_images KB) <> 1%nat)) as [Hl|Hl].
    - destruct (decide _) as [_|Hn] in Hp; [discriminate Hp|].
      exfalso. apply Hn. by split.
    - destruct (bundle_images KB); by eexists. }
  destruct Hprog as [p Hprog]. rewrite Hprog, bind_ret_l in Hrun.
  unfold bind at 1 in Hrun. rewrite call_eq in Hrun.
  destruct (rep_result (pi Backend t _)) eqn:Er.
  2,3: simpl in Hrun; apply app_inv_head in Hrun; inversion Hrun; subst;
       unfold succeeded in Hok; simpl in Hok; congruence.
  destruct (decide (Backend = backend_opencl)) as [Hb|Hb].
  - unfold bind in Hrun. rewrite call_eq in Hrun.
    destruct (rep_result (pi Backend _ (urKernelRetain _)));
      simpl in Hrun; rewrite <- app_assoc in Hrun;
      apply app_inv_head in Hrun; inversion Hrun; subst; reflexivity.
  - simpl in Hrun. apply app_inv_head in Hrun. by inversion Hrun.
Qed.

Lemma make_kernel_retain_witness :
  [entry (sim_plugin [] UR_PROGRAM_BINARY_TYPE_NONE)
     [entry (sim_plugin [] UR_PROGRAM_BINARY_TYPE_NONE) []
        (urKernelCreateWithNativeHandle 9 50 nullptr
           (Some {| isNativeHandleOwned := false |}))]
     (urKernelRetain 7)]
  = [entry (sim_plugin [] UR_PROGRAM_BINARY_TYPE_NONE)
       ([] ++ [entry (sim_plugin [] UR_PROGRAM_BINARY_TYPE_NONE) []
                 (urKernelCreateWithNativeHandle 9 50 nullptr
                    (Some {| isNativeHandleOwned := false |}))])
       (urKernelRetain 7)].
Proof.
  exact (make_kernel_retain
           (fun _ => sim_plugin [] UR_PROGRAM_BINARY_TYPE_NONE)
           (sim_context backend_opencl)
           (sim_empty_bundle (sim_context backend_opencl)) 9 true
           backend_opencl []
           (entry (sim_plugin [] UR_PROGRAM_BINARY_TYPE_NONE) []
              (urKernelCreateWithNativeHandle 9 50 nullptr
                 (Some {| isNativeHandleOwned := false |})))
           [entry (sim_plugin [] UR_PROGRAM_BINARY_TYPE_NONE)
              [entry (sim_plugin [] UR_PROGRAM_BINARY_TYPE_NONE) []
                 (urKernelCreateWithNativeHandle 9 50 nullptr
                    (Some {| isNativeHandleOwned := false |}))]
              (urKernelRetain 7)]
           eq_refl eq_refl).
Defined.

Lemma make_kernel_bundle_shape pi gp h Ctx keep State Backend t KB t' :
  make_kernel_bundle pi gp h Ctx keep State Backend t = (Ok KB, t') ->
  exists img,
    bundle_images KB = [img] /\
    bundle_context KB = Ctx /\
    image_context img = Ctx /\
    image_state img = State /\
    image_kernel_ids img = [] /\
    image_devices img = bundle_devices KB.
Proof.
  intros Hrun. apply make_kernel_bundle_Ok in Hrun as [_ Hrun].
  unfold reconcile_imported in Hrun. do 3 ok_step Hrun.
  inversion Hrun; subst. eexists. repeat split.
Qed.

(** X7.  A bundle returned by [make_kernel_bundle] has exactly one device
    image, in the requested state, on the target context and without kernel
    ids.  It therefore always passes the single-image check of a Level Zero
    [make_kernel], whose kernel-create call, its only call, carries the
    program handle of that image. *)
Theorem imported_bundle_serves_level_zero_kernel
    pi gp h Ctx keep State Backend t KB t' Ctx' h' keep' t2 :
  make_kernel_bundle pi gp h Ctx keep State Backend t = (Ok KB, t') ->
  exists img,
    bundle_images KB = [img] /\
    image_state img = State /\
    image_context img = Ctx /\
    image_kernel_ids img = [] /\
    (make_kernel pi Ctx' KB h' keep' backend_ext_oneapi_level_zero t2).2
    = t2 ++ [entry (pi backend_ext_oneapi_level_zero) t2
               (urKernelCreateWithNativeHandle h' (context_handle Ctx')
                  (get_ur_program_ref img)
                  (Some {| isNativeHandleOwned := negb keep' |}))].
Proof.
  intros Hrun.
  apply make_kernel_bundle_shape in Hrun
    as (img & Himg & _ & Hctx & Hst & Hids & _).
  exists img. repeat split; try assumption.
  unfold make_kernel. simpl. rewrite Himg. simpl.
  unfold bind. simpl. rewrite call_eq.
  destruct (rep_result _); reflexivity.
Qed.

Lemma imported_bundle_serves_level_zero_kernel_witness :
  exists img,
    (make_kernel (fun _ => sim_plugin [101] UR_PROGRAM_BINARY_TYPE_EXECUTABLE)
       (sim_context backend_ext_oneapi_level_zero)
       {| bundle_context := sim_context backend_ext_oneapi_level_zero;
          bundle_devices := [wrap_device sim_platform_of
                               (sim_plugin [101] UR_PROGRAM_BINARY_TYPE_EXECUTABLE)
                               101];
          bundle_images := [img] |}
       11 false backend_ext_oneapi_level_zero []).2
    = [] ++ [entry (sim_plugin [101] UR_PROGRAM_BINARY_TYPE_EXECUTABLE) []
               (urKernelCreateWithNativeHandle 11 50 (get_ur_program_ref img)
                  (Some {| isNativeHandleOwned := true |}))].
Proof.
  let r := eval lazy in
    (make_kernel_bundle
       (fun _ => sim_plugin [101] UR_PROGRAM_BINARY_TYPE_EXECUTABLE)
       sim_platform_of 9 (sim_context backend_ext_oneapi_level_zero) false
       bundle_state_executable backend_ext_oneapi_level_zero []) in
  match r with
  | (Ok ?KB, ?t') =>
      destruct (imported_bundle_serves_level_zero_kernel
                  (fun _ => sim_plugin [101] UR_PROGRAM_BINARY_TYPE_EXECUTABLE)
                  sim_platform_of 9 (sim_context backend_ext_oneapi_level_zero)
                  false bundle_state_executable backend_ext_oneapi_level_zero
                  [] KB t' (sim_context backend_ext_oneapi_level_zero) 11 false
                  [] eq_refl)
        as (img & Himg & _ & _ & _ & Hlog)
  end.
  exists img. simpl in Himg. inversion Himg; subst. exact Hlog.
Defined.

(** ** The overloads without an ownership flag *)

Lemma issues_overloads pi gp geb h Ctx State Backend :
  let Q := fun c => is_create_call c = true ->
                    ownership_property c = Some (Some true) in
  issues Q (make_event_3 pi h Ctx Backend)
  /\ issues Q (make_kernel_bundle_4 pi gp h Ctx State Backend)
  /\ issues Q (make_kernel_3 pi geb h Ctx Backend).
Proof.
  intros Q. unfold make_event_3, make_kernel_bundle_4, make_kernel_3.
  unfold make_event, make_kernel. rewrite make_kernel_bundle_eq.
  split; [|split].
  - issues_steps; intros Hn; first [reflexivity|discriminate Hn].
  - apply issues_bind; [apply issues_getUrPlugin|intros P].
    apply issues_bind; [apply issues_call; intros _; reflexivity|intros r].
    apply issues_bind.
    + issues_steps. intros Hn. discriminate Hn.
    + intros _. apply issues_reconcile_imported.
      * intros c Hc. destruct c; try discriminate Hc; intros Hn; discriminate Hn.
      * intros a b Hn. discriminate Hn.
  - issues_steps; intros Hn; first [reflexivity|discriminate Hn].
Qed.

(** X8.  The overloads of [make_event], [make_kernel_bundle] and
    [make_kernel] that take no ownership flag behave as with
    [KeepOwnership = false]: every create call they issue tells the backend
    that it owns the native handle ([isNativeHandleOwned = true]). *)
Theorem overloads_hand_over_ownership pi gp geb h Ctx State Backend t ext ev :
  (make_event_3 pi h Ctx Backend t).2 = t ++ ext \/
  (make_kernel_bundle_4 pi gp h Ctx State Backend t).2 = t ++ ext \/
  (make_kernel_3 pi geb h Ctx Backend t).2 = t ++ ext ->
  ev ∈ ext ->
  is_create_call (ev_call ev) = true ->
  ownership_property (ev_call ev) = Some (Some true).
Proof.
  intros Hrun Hin Hc.
  destruct (issues_overloads pi gp geb h Ctx State Backend) as (He & Hb & Hk).
  destruct Hrun as [Hrun|[Hrun|Hrun]];
    [destruct (He t) as [ext' [E F]]
    |destruct (Hb t) as [ext' [E F]]
    |destruct (Hk t) as [ext' [E F]]];
    rewrite Hrun in E; apply app_inv_head in E; subst ext';
    rewrite Forall_forall in F; exact (F ev Hin Hc).
Qed.

Lemma overloads_hand_over_ownership_witness :
  ownership_property
    (urProgramCreateWithNativeHandle 9 50
       (Some {| isNativeHandleOwned := true |}))
  = Some (Some true).
Proof.
  exact (overloads_hand_over_ownership
           (fun _ => sim_plugin [] UR_PROGRAM_BINARY_TYPE_NONE)
           sim_platform_of sim_empty_bundle 9 (sim_context backend_opencl)
           bundle_state_input backend_opencl [] _
           (entry (sim_plugin [] UR_PROGRAM_BINARY_TYPE_NONE) []
              (urProgramCreateWithNativeHandle 9 50
                 (Some {| isNativeHandleOwned := true |})))
           (or_intror (or_introl eq_refl)) ltac:(left) eq_refl).
Defined.

(** X9.  The three-argument [make_kernel] builds its kernel over the empty
    interop bundle of the context.  Whenever that bundle does not hold
    exactly one device image, the overload cannot create a Level Zero
    kernel: it throws the single-image error without any backend call. *)
Theorem make_kernel_3_level_zero pi geb h Ctx t :
  length (bundle_images (geb Ctx)) <> 1%nat ->
  make_kernel_3 pi geb h Ctx backend_ext_oneapi_level_zero t
  = (Throw single_image_expected, t).
Proof.
  intros Hn. unfold make_kernel_3, make_kernel. simpl.
  rewrite bind_ret_l. simpl.
  destruct (decide (length (bundle_images (geb Ctx)) <> 1%nat)); [|done].
  reflexivity.
Qed.

Lemma make_kernel_3_level_zero_witness :
  make_kernel_3 (fun _ => sim_plugin [] UR_PROGRAM_BINARY_TYPE_NONE)
    sim_empty_bundle 9 (sim_context backend_ext_oneapi_level_zero)
    backend_ext_oneapi_level_zero []
  = (Throw single_image_expected, []).
Proof.
  apply (make_kernel_3_level_zero
           (fun _ => sim_plugin [] UR_PROGRAM_BINARY_TYPE_NONE)
           sim_empty_bundle 9 (sim_context backend_ext_oneapi_level_zero) []).
  simpl. lia.
Defined.

(** ** The per-device loop *)

Lemma reconcile_switch_calls Plugin ctx State Dev bt p t :
  exists ext,
    (reconcile_switch Plugin ctx State Dev bt p t).2 = t ++ ext /\
    Forall (fun ev => is_device_op_call (ev_call ev) = true) ext /\
    (length ext <= 2)%nat.
Proof.
  destruct bt, State; unfold reconcile_switch; simpl;
    try (exists []; rewrite app_nil_r; repeat split;
         [constructor|simpl; lia]).
  all: rewrite (bind_Ok _ _ _ _ _ (call_nocheck_eq _ _ _));
    match goal with
    | |- context [decide (rep_result ?r = UR_RESULT_ERROR_UNSUPPORTED_FEATURE)] =>
        destruct (decide (rep_result r = UR_RESULT_ERROR_UNSUPPORTED_FEATURE))
    end; unfold bind; simpl; rewrite ?checkUrResult_eq; simpl;
    match goal with
    | |- context [decide (?x = UR_RESULT_SUCCESS)] =>
        destruct (decide (x = UR_RESULT_SUCCESS))
    end; simpl; rewrite <- ?app_assoc; simpl;
    eexists; (split; [reflexivity|]).
  all: split.
  all: try (simpl; lia).
  all: repeat constructor.
Qed.

Lemma count_calls_le f (ext : list event_log_entry) :
  (count_calls f ext <= length ext)%nat.
Proof. unfold count_calls. apply length_filter. Qed.

Lemma reconcile_devices_cons Plugin ctx State Dev rest p t :
  reconcile_devices Plugin ctx State (Dev :: rest) p t
  = match rep_result (Plugin t (urProgramGetBuildInfo p Dev)) with
    | UR_RESULT_SUCCESS =>
        match reconcile_switch Plugin ctx State Dev
                (out_binary_type (Plugin t (urProgramGetBuildInfo p Dev))) p
                (t ++ [entry Plugin t (urProgramGetBuildInfo p Dev)]) with
        | (Ok p1, t1) => reconcile_devices Plugin ctx State rest p1 t1
        | (Throw x, t1) => (Throw x, t1)
        end
    | res =>
        (Throw (ur_call_failed errc_runtime res),
         t ++ [entry Plugin t (urProgramGetBuildInfo p Dev)])
    end.
Proof.
  simpl. unfold reconcile_device, bind. rewrite call_eq.
  destruct (rep_result (Plugin t (urProgramGetBuildInfo p Dev))); reflexivity.
Qed.

(** X10.  The per-device loop handles the devices in the order of the
    vector and stops at the first failure: whatever the outcome, the
    devices whose binary type was queried are a prefix of the program's
    devices, all of them if the loop completes; the loop issues nothing but
    binary-type queries and compile, build and link calls, at most two of
    the latter per queried device. *)
Theorem reconcile_in_order Plugin ctx State devs :
  forall p t,
  exists ext,
    (reconcile_devices Plugin ctx State devs p t).2 = t ++ ext /\
    queried_devices ext `prefix_of` devs /\
    (forall p', (reconcile_devices Plugin ctx State devs p t).1 = Ok p' ->
                queried_devices ext = devs) /\
    Forall (fun ev => is_reconcile_call (ev_call ev) = true) ext /\
    (count_calls is_device_op_call ext
       <= 2 * length (queried_devices ext))%nat.
Proof.
  induction devs as [|Dev rest IH]; intros p t.
  - exists []. simpl. rewrite app_nil_r. repeat split; try constructor.
    apply prefix_nil.
  - rewrite reconcile_devices_cons.
    set (e := entry Plugin t (urProgramGetBuildInfo p Dev)).
    assert (Hq : queried_devices [e] = [Dev]) by reflexivity.
    assert (Hc0 : count_calls is_device_op_call [e] = 0%nat) by reflexivity.
    assert (Hfail : forall (x : exn),
               exists ext,
                 ((Throw x : outcome ur_handle), t ++ [e]).2 = t ++ ext /\
                 queried_devices ext `prefix_of` Dev :: rest /\
                 (forall p', ((Throw x : outcome ur_handle), t ++ [e]).1
                             = Ok p' ->
                             queried_devices ext = Dev :: rest) /\
                 Forall (fun ev => is_reconcile_call (ev_call ev) = true) ext /\
                 (count_calls is_device_op_call ext
                  <= 2 * length (queried_devices ext))%nat).
    { intros x. exists [e]. split; [reflexivity|]. split.
      - exists rest. by rewrite Hq.
      - split; [intros p' Hp; discriminate Hp|].
        split; [repeat constructor|]. rewrite Hc0. lia. }
    destruct (rep_result (Plugin t (urProgramGetBuildInfo p Dev)));
      [|exact (Hfail _)..].
    clear Hfail.
    destruct (reconcile_switch_calls Plugin ctx State Dev
                (out_binary_type (Plugin t (urProgramGetBuildInfo p Dev)))
                p (t ++ [e])) as (ops & Eops & Fops & Lops).
    assert (Hrops : Forall (fun ev => is_reconcile_call (ev_call ev) = true) ops).
    { eapply Forall_impl; [exact Fops|]. intros ev Hev.
      unfold is_reconcile_call. rewrite Hev. apply orb_true_r. }
    pose proof (count_calls_le is_device_op_call ops) as Hcops.
    pose proof (queried_devices_ops ops Fops) as Hqops.
    destruct (reconcile_switch _ _ _ _ _ _ _) as [[p1|x] t1];
      simpl in Eops; subst t1.
    + destruct (IH p1 ((t ++ [e]) ++ ops)) as (ext & E & Hpre & Hall & F & Hc).
      exists ([e] ++ ops ++ ext).
      split; [rewrite E, <- !app_assoc; reflexivity|].
      rewrite !queried_devices_app, Hq, Hqops.
      change ([Dev] ++ [] ++ queried_devices ext)
        with (Dev :: queried_devices ext).
      split; [by apply prefix_cons|].
      split; [intros p' Hp; f_equal; by apply (Hall p')|].
      split.
      * apply Forall_app; split; [repeat constructor|].
        apply Forall_app; split; [exact Hrops|exact F].
      * rewrite !count_calls_app, Hc0. simpl length. lia.
    + exists ([e] ++ ops). split; [by rewrite <- app_assoc|].
      rewrite queried_devices_app, Hq, Hqops.
      change ([Dev] ++ []) with [Dev].
      split; [exists rest; reflexivity|].
      split; [intros p' Hp; discriminate Hp|].
      split.
      * apply Forall_app; split; [repeat constructor|exact Hrops].
      * rewrite count_calls_app, Hc0. simpl length. lia.
Qed.

Lemma reconcile_switch_settled Plugin ctx State Dev bt p t :
  settled bt State = true ->
  reconcile_switch Plugin ctx State Dev bt p t = (Ok p, t).
Proof. destruct bt, State; intros H; try discriminate H; reflexivity. Qed.

(** X11.  Reconciling a program whose devices are all settled (each query
    succeeds and reports a binary type for which the switch has nothing to
    do) issues exactly one binary-type query per device, in order, and no
    other call, and leaves the program handle as it was.  Running the loop
    again therefore compiles, builds and links nothing either. *)
Theorem settled_program_is_only_queried Plugin ctx State devs p :
  (forall t d,
     rep_result (Plugin t (urProgramGetBuildInfo p d)) = UR_RESULT_SUCCESS /\
     settled (out_binary_type (Plugin t (urProgramGetBuildInfo p d))) State
       = true) ->
  forall t, exists ext,
    reconcile_devices Plugin ctx State devs p t = (Ok p, t ++ ext) /\
    ev_call <$> ext = urProgramGetBuildInfo p <$> devs.
Proof.
  intros Hs. induction devs as [|Dev rest IH]; intros t; simpl.
  - exists []. by rewrite app_nil_r.
  - destruct (Hs t Dev) as [Hok Hset].
    unfold reconcile_device. unfold bind at 1 2. rewrite call_eq, Hok.
    rewrite (reconcile_switch_settled _ _ _ _ _ _ _ Hset).
    destruct (IH (t ++ [entry Plugin t (urProgramGetBuildInfo p Dev)]))
      as (ext & E & Hcalls).
    exists (entry Plugin t (urProgramGetBuildInfo p Dev) :: ext).
    rewrite E, <- app_assoc. split; [reflexivity|].
    simpl. f_equal. exact Hcalls.
Qed.

Lemma settled_program_is_only_queried_witness :
  exists ext,
    reconcile_devices (sim_plugin [101; 102] UR_PROGRAM_BINARY_TYPE_EXECUTABLE)
      (sim_context backend_opencl) bundle_state_executable [101; 102] 7 []
    = (Ok 7, [] ++ ext) /\
    ev_call <$> ext = urProgramGetBuildInfo 7 <$> [101; 102].
Proof.
  apply (settled_program_is_only_queried
           (sim_plugin [101; 102] UR_PROGRAM_BINARY_TYPE_EXECUTABLE)
           (sim_context backend_opencl) bundle_state_executable [101; 102] 7).
  intros t d. split; reflexivity.
Defined.

Lemma reconcile_switch_keeps_program Plugin ctx State Dev bt p t p' t' :
  State <> bundle_state_executable ->
  reconcile_switch Plugin ctx State Dev bt p t = (Ok p', t') -> p' = p.
Proof.
  intros Hst Hrun.
  destruct bt, State; try done; simpl in Hrun;
    try (inversion Hrun; reflexivity);
    unfold reconcile_switch in Hrun; simpl in Hrun;
    rewrite (bind_Ok _ _ _ _ _ (call_nocheck_eq _ _ _)) in Hrun;
    do 2 ok_step Hrun; by inversion Hrun.
Qed.

Lemma reconcile_devices_keeps_program Plugin ctx State devs :
  State <> bundle_state_executable ->
  forall p t p' t',
    reconcile_devices Plugin ctx State devs p t = (Ok p', t') -> p' = p.
Proof.
  intros Hst. induction devs as [|Dev rest IH]; intros p t p' t' Hrun.
  - by inversion Hrun.
  - simpl in Hrun. ok_step Hrun. unfold reconcile_device in Hstep.
    ok_step Hstep.
    apply reconcile_switch_keeps_program in Hstep; [|exact Hst]. subst a.
    by apply IH in Hrun.
Qed.

(** X12.  Only linking replaces the imported program: when the requested
    state is input or object, the device image of the returned bundle holds
    exactly the program handle the create call wrote (null if it wrote
    none), whatever was compiled on the way. *)
Theorem image_program_is_imported pi gp h Ctx keep State Backend t KB t' img :
  State <> bundle_state_executable ->
  make_kernel_bundle pi gp h Ctx keep State Backend t = (Ok KB, t') ->
  img ∈ bundle_images KB ->
  get_ur_program_ref img
  = written nullptr
      (pi Backend t
         (urProgramCreateWithNativeHandle h (context_handle Ctx)
            (Some {| isNativeHandleOwned := negb keep |}))).
Proof.
  intros Hst Hrun Hin.
  apply make_kernel_bundle_Ok in Hrun as [_ Hrun].
  unfold reconcile_imported in Hrun. do 3 ok_step Hrun.
  apply reconcile_devices_keeps_program in Hstep1; [|exact Hst].
  inversion Hrun; subst. simpl in Hin.
  apply list_elem_of_singleton in Hin. by subst img.
Qed.

Lemma image_program_is_imported_witness :
  get_ur_program_ref
    {| image_context := sim_context backend_opencl;
       image_devices := [wrap_device sim_platform_of
                           (sim_plugin_legacy [101] UR_PROGRAM_BINARY_TYPE_NONE)
                           101];
       image_state := bundle_state_object;
       image_kernel_ids := [];
       get_ur_program_ref := 7 |}
  = written nullptr
      (sim_plugin_legacy [101] UR_PROGRAM_BINARY_TYPE_NONE []
         (urProgramCreateWithNativeHandle 9 50
            (Some {| isNativeHandleOwned := negb true |}))).
Proof.
  let r := eval lazy in
    (make_kernel_bundle
       (fun _ => sim_plugin_legacy [101] UR_PROGRAM_BINARY_TYPE_NONE)
       sim_platform_of 9 (sim_context backend_opencl) true
       bundle_state_object backend_opencl []) in
  match r with
  | (Ok ?KB, ?t') =>
      apply (image_program_is_imported
               (fun _ => sim_plugin_legacy [101] UR_PROGRAM_BINARY_TYPE_NONE)
               sim_platform_of 9 (sim_context backend_opencl) true
               bundle_state_object backend_opencl [] KB t')
  end.
  - discriminate.
  - reflexivity.
  - left.
Defined.

Lemma issues_reconcile_switch_serves Plugin ctx State Dev bt p :
  issues (fun c => is_device_op_call c = true -> serves State c)
         (reconcile_switch Plugin ctx State Dev bt p).
Proof.
  destruct bt, State; unfold reconcile_switch; simpl;
    issues_steps; intros _; reflexivity.
Qed.

Lemma issues_reconcile_devices_serves Plugin ctx State devs :
  forall p,
    issues (fun c => is_device_op_call c = true -> serves State c)
           (reconcile_devices Plugin ctx State devs p).
Proof.
  induction devs as [|Dev rest IH]; intros p; simpl.
  - apply issues_ret.
  - apply issues_bind; [|intros p'; apply IH].
    unfold reconcile_device.
    apply issues_bind;
      [apply issues_call; intros Hc; discriminate Hc|intros r].
    apply issues_reconcile_switch_serves.
Qed.

(** X13.  The compile, build and link calls of [make_kernel_bundle] fit the
    requested state: none at all is issued for input, only compile calls
    for object, only build and link calls for executable. *)
Theorem device_ops_serve_requested_state
    pi gp h Ctx keep State Backend t ext ev :
  (make_kernel_bundle pi gp h Ctx keep State Backend t).2 = t ++ ext ->
  ev ∈ ext ->
  is_device_op_call (ev_call ev) = true ->
  serves State (ev_call ev).
Proof.
  intros Hrun Hin Hc.
  assert (Hiss : issues (fun c => is_device_op_call c = true -> serves State c)
                        (make_kernel_bundle pi gp h Ctx keep State Backend)).
  { rewrite make_kernel_bundle_eq.
    apply issues_bind; [apply issues_getUrPlugin|intros P].
    apply issues_bind;
      [apply issues_call; intros Hx; discriminate Hx|intros r].
    apply issues_bind.
    - issues_steps. intros Hx. discriminate Hx.
    - intros _. unfold reconcile_imported.
      apply issues_bind;
        [apply issues_call; intros Hx; discriminate Hx|intros rn].
      apply issues_bind;
        [apply issues_call; intros Hx; discriminate Hx|intros rd].
      apply issues_bind; [apply issues_reconcile_devices_serves|intros p'].
      apply issues_ret. }
  destruct (Hiss t) as [ext' [E F]].
  rewrite Hrun in E. apply app_inv_head in E. subst ext'.
  rewrite Forall_forall in F. exact (F ev Hin Hc).
Qed.

Lemma device_ops_serve_requested_state_witness :
  serves bundle_state_object (urProgramCompileExp 7 [101]).
Proof.
  exact (device_ops_serve_requested_state
           (fun _ => sim_plugin [101] UR_PROGRAM_BINARY_TYPE_NONE)
           sim_platform_of 9 (sim_context backend_ext_oneapi_cuda) false
           bundle_state_object backend_ext_oneapi_cuda [] _
           (entry (sim_plugin [101] UR_PROGRAM_BINARY_TYPE_NONE) []
              (urProgramCompileExp 7 [101]))
           eq_refl ltac:(do 4 right; left) eq_refl).
Defined.

(** ** Contexts made by make_context *)

Lemma make_kernel_bundle_after_create pi gp h Ctx keep State Backend t e0 rest :
  succeeded e0 ->
  (make_kernel_bundle pi gp h Ctx keep State Backend t).2 = t ++ e0 :: rest ->
  exists tail,
    rest = (if decide (context_backend Ctx = backend_opencl)
            then [entry (pi Backend) (t ++ [e0])
                    (urProgramRetain (written nullptr (ev_reply e0)))]
            else []) ++ tail /\
    count_calls is_retain_call tail = 0%nat.
Proof.
  intros Hok Hrun. rewrite make_kernel_bundle_eq in Hrun.
  destruct (supported_backend Backend) eqn:Hs.
  2:{ rewrite (bind_Throw _ _ _ _ _ (getUrPlugin_unsupported pi _ t Hs)) in Hrun.
      simpl in Hrun. by apply log_unchanged_inv in Hrun. }
  rewrite (bind_Ok _ _ _ _ _ (getUrPlugin_supported pi _ t Hs)) in Hrun.
  unfold bind at 1 in Hrun. rewrite call_eq in Hrun.
  destruct (rep_result (pi Backend t _)) eqn:Er.
  2,3: simpl in Hrun; apply app_inv_head in Hrun; inversion Hrun; subst;
       unfold succeeded in Hok; simpl in Hok; congruence.
  set (c0 := urProgramCreateWithNativeHandle _ _ _) in *.
  assert (Htail : forall t1, exists ext,
             (reconcile_imported gp (pi Backend) Ctx State
                (written nullptr (pi Backend t c0)) t1).2 = t1 ++ ext /\
             count_calls is_retain_call ext = 0%nat).
  { intros t1.
    destruct (issues_reconcile_imported
                (fun c => is_retain_call c = false) gp (pi Backend) Ctx State
                (written nullptr (pi Backend t c0)))
      with (t := t1) as [ext [E F]].
    - intros c Hc. destruct c; try discriminate Hc; reflexivity.
    - reflexivity.
    - exists ext. split; [exact E|]. by apply count_calls_none. }
  destruct (decide (context_backend Ctx = backend_opencl)) as [Hb|Hb].
  - unfold bind at 1 in Hrun. unfold bind at 1 in Hrun.
    rewrite call_eq in Hrun.
    destruct (rep_result (pi Backend _ (urProgramRetain _))) eqn:Er1.
    2,3: simpl in Hrun; rewrite <- app_assoc in Hrun;
         apply app_inv_head in Hrun; inversion Hrun; subst;
         exists []; split; reflexivity.
    simpl in Hrun.
    destruct (Htail ((t ++ [entry (pi Backend) t c0]) ++
                     [entry (pi Backend) (t ++ [entry (pi Backend) t c0])
                        (urProgramRetain (written nullptr (pi Backend t c0)))]))
      as [ext [E Hc]].
    rewrite E, <- !app_assoc in Hrun. apply app_inv_head in Hrun.
    simpl in Hrun. inversion Hrun; subst.
    eexists. split; [reflexivity|exact Hc].
  - rewrite bind_ret_l in Hrun.
    destruct (Htail (t ++ [entry (pi Backend) t c0])) as [ext [E Hc]].
    rewrite E, <- app_assoc in Hrun. apply app_inv_head in Hrun.
    simpl in Hrun. inversion Hrun; subst.
    eexists. split; [reflexivity|exact Hc].
Qed.

(** X14.  A context returned by [make_context] records the backend it was
    made for, so with such a context and the same [Backend] argument the
    retain correction of [make_kernel_bundle] follows the argument: once the
    create call has succeeded, exactly one retain call is issued if
    [Backend] is OpenCL and none otherwise. *)
Theorem retain_with_own_context
    pi gp h0 hd h keep State Backend t0 t1 Ctx t e0 rest :
  make_context pi h0 hd Backend t0 = (Ok Ctx, t1) ->
  succeeded e0 ->
  (make_kernel_bundle pi gp h Ctx keep State Backend t).2 = t ++ e0 :: rest ->
  context_backend Ctx = Backend /\
  count_calls is_retain_call rest
  = (if decide (Backend = backend_opencl) then 1 else 0)%nat.
Proof.
  intros Hctx Hok Hrun.
  assert (Hb : context_backend Ctx = Backend).
  { unfold make_context in Hctx. do 2 ok_step Hctx. by inversion Hctx. }
  split; [exact Hb|].
  destruct (make_kernel_bundle_after_create _ _ _ _ _ _ _ _ _ _ Hok Hrun)
    as (tail & -> & Hc).
  rewrite count_calls_app, Hc, Hb.
  destruct (decide (Backend = backend_opencl)); reflexivity.
Qed.

Lemma retain_with_own_context_witness :
  context_backend
    {| context_handle := 7; context_handler := 0;
       context_backend := backend_ext_oneapi_level_zero |}
  = backend_ext_oneapi_level_zero
  /\ count_calls is_retain_call
       [entry (sim_plugin [] UR_PROGRAM_BINARY_TYPE_NONE) []
          (urProgramGetInfo 7 UR_PROGRAM_INFO_NUM_DEVICES 4);
        entry (sim_plugin [] UR_PROGRAM_BINARY_TYPE_NONE) []
          (urProgramGetInfo 7 UR_PROGRAM_INFO_DEVICES 0)]
     = 0%nat.
Proof.
  exact (retain_with_own_context
           (fun _ => sim_plugin [] UR_PROGRAM_BINARY_TYPE_NONE)
           sim_platform_of 3 0 9 false bundle_state_input
           backend_ext_oneapi_level_zero [] _
           {| context_handle := 7; context_handler := 0;
              context_backend := backend_ext_oneapi_level_zero |}
           []
           (entry (sim_plugin [] UR_PROGRAM_BINARY_TYPE_NONE) []
              (urProgramCreateWithNativeHandle 9 7
                 (Some {| isNativeHandleOwned := true |})))
           [entry (sim_plugin [] UR_PROGRAM_BINARY_TYPE_NONE) []
              (urProgramGetInfo 7 UR_PROGRAM_INFO_NUM_DEVICES 4);
            entry (sim_plugin [] UR_PROGRAM_BINARY_TYPE_NONE) []
              (urProgramGetInfo 7 UR_PROGRAM_INFO_DEVICES 0)]
           eq_refl eq_refl eq_refl).
Defined.

(** ** Lookups of getNativeMem *)



(** ** A program without devices *)

(** X16.  When every call succeeds and the backend reports no device for
    the imported program (zero, or no number written at all), then
    [make_kernel_bundle] returns a bundle without devices, for every
    requested state, after the create call, the retain if the context is an
    OpenCL one, and the two device queries: no binary type is queried and
    nothing is compiled, built or linked. *)
Theorem program_without_devices pi gp h Ctx keep State Backend t :
  supported_backend Backend = true ->
  (forall t' c, rep_result (pi Backend t' c) = UR_RESULT_SUCCESS) ->
  (forall t' p sz,
     default 0%nat
       (out_uint32 (pi Backend t'
                      (urProgramGetInfo p UR_PROGRAM_INFO_NUM_DEVICES sz)))
     = 0%nat) ->
  exists KB ext,
    make_kernel_bundle pi gp h Ctx keep State Backend t = (Ok KB, t ++ ext) /\
    bundle_devices KB = [] /\
    Forall (fun ev => is_reconcile_call (ev_call ev) = false) ext /\
    ev_call <$> ext
    = let create :=
        urProgramCreateWithNativeHandle h (context_handle Ctx)
          (Some {| isNativeHandleOwned := negb keep |}) in
      let p := written nullptr (pi Backend t create) in
      create
      :: (if decide (context_backend Ctx = backend_opencl)
          then [urProgramRetain p] else [])
      ++ [urProgramGetInfo p UR_PROGRAM_INFO_NUM_DEVICES 4;
          urProgramGetInfo p UR_PROGRAM_INFO_DEVICES 0].
Proof.
  intros Hs Hall Hzero. rewrite make_kernel_bundle_eq.
  rewrite (bind_Ok _ _ _ _ _ (getUrPlugin_supported pi _ t Hs)).
  unfold bind at 1. rewrite call_eq, Hall.
  unfold reconcile_imported.
  destruct (decide (context_backend Ctx = backend_opencl)) as [Hb|Hb].
  - unfold bind at 1 2. rewrite call_eq, Hall. simpl.
    unfold bind at 1. rewrite call_eq, Hall, Hzero.
    unfold bind at 1. rewrite call_eq, Hall. simpl.
    rewrite resize_0. unfold bind. simpl.
    rewrite <- !app_assoc. simpl.
    eexists. eexists. split; [reflexivity|].
    split; [reflexivity|]. split; [repeat constructor|reflexivity].
  - rewrite bind_ret_l.
    unfold bind at 1. rewrite call_eq, Hall, Hzero.
    unfold bind at 1. rewrite call_eq, Hall. simpl.
    rewrite resize_0. unfold bind. simpl.
    rewrite <- !app_assoc. simpl.
    eexists. eexists. split; [reflexivity|].
    split; [reflexivity|]. split; [repeat constructor|reflexivity].
Qed.

Lemma program_without_devices_witness :
  exists KB ext,
    make_kernel_bundle (fun _ => sim_plugin [] UR_PROGRAM_BINARY_TYPE_EXECUTABLE)
      sim_platform_of 9 (sim_context backend_ext_oneapi_hip) false
      bundle_state_input backend_ext_oneapi_hip []
    = (Ok KB, [] ++ ext) /\
    bundle_devices KB = [] /\
    Forall (fun ev => is_reconcile_call (ev_call ev) = false) ext /\
    ev_call <$> ext
    = [urProgramCreateWithNativeHandle 9 50
         (Some {| isNativeHandleOwned := true |});
       urProgramGetInfo 7 UR_PROGRAM_INFO_NUM_DEVICES 4;
       urProgramGetInfo 7 UR_PROGRAM_INFO_DEVICES 0].
Proof.
  exact (program_without_devices
           (fun _ => sim_plugin [] UR_PROGRAM_BINARY_TYPE_EXECUTABLE)
           sim_platform_of 9 (sim_context backend_ext_oneapi_hip) false
           bundle_state_input backend_ext_oneapi_hip []
           eq_refl (fun _ _ => eq_refl) (fun _ _ _ => eq_refl)).
Defined.

(** * The reconciliation table inside make_kernel_bundle *)

(** ** Finding the iteration of a query in the log *)

Lemma split_at_query (hd L pre post : list event_log_entry) q :
  pre ++ q :: post = hd ++ L ->
  Forall (fun ev => is_binary_type_query (ev_call ev) = false) hd ->
  is_binary_type_query (ev_call q) = true ->
  exists pre', pre = hd ++ pre' /\ L = pre' ++ q :: post.
Proof.
  revert pre. induction hd as [|x hd IH]; intros pre H F Hq.
  - exists pre. split; [reflexivity|]. symmetry. exact H.
  - inversion F as [|? ? Hx F']; subst.
    destruct pre as [|y pre]; simpl in H; inversion H; subst.
    + congruence.
    + destruct (IH pre H2 F' Hq) as (pre' & -> & ->).
      exists pre'. split; reflexivity.
Qed.

Lemma no_query_among hd pre post q :
  pre ++ q :: post = hd ->
  Forall (fun ev => is_binary_type_query (ev_call ev) = false) hd ->
  is_binary_type_query (ev_call q) = true -> False.
Proof.
  intros H F Hq. rewrite <- (app_nil_r hd) in H.
  destruct (split_at_query _ _ _ _ _ H F Hq) as (pre' & _ & Hnil).
  destruct pre'; discriminate Hnil.
Qed.

Lemma device_ops_not_queries (ops : list event_log_entry) :
  Forall (fun ev => is_device_op_call (ev_call ev) = true) ops ->
  Forall (fun ev => is_binary_type_query (ev_call ev) = false) ops.
Proof.
  intros H. eapply Forall_impl; [exact H|]. intros ev. cbv beta.
  destruct (ev_call ev); intros Hev; try discriminate Hev; reflexivity.
Qed.


Lemma thrown_Some {A} (o : outcome A) e : thrown o = Some e -> o = Throw e.
Proof. destruct o; intros H; inversion H; reflexivity. Qed.

Lemma reported_device_mono Dev (a l b : list event_log_entry) :
  reported_device Dev l -> reported_device Dev (a ++ l ++ b).
Proof.
  intros (eN & eD & p & szN & szD & HN & HD & H).
  exists eN, eD, p, szN, szD.
  split; [apply elem_of_app; right; apply elem_of_app; by left|].
  split; [apply elem_of_app; right; apply elem_of_app; by left|exact H].
Qed.

(** ** The loop *)

Lemma reconcile_devices_log Plugin ctx State devs :
  forall p t, exists ext,
    (reconcile_devices Plugin ctx State devs p t).2 = t ++ ext /\
    match ext with
    | [] => True
    | next :: _ => exists Dev', ev_call next = urProgramGetBuildInfo p Dev'
    end.
Proof.
  induction devs as [|Dev rest IH]; intros p t.
  - exists []. simpl. by rewrite app_nil_r.
  - rewrite reconcile_devices_cons.
    set (e := entry Plugin t (urProgramGetBuildInfo p Dev)).
    destruct (rep_result (Plugin t (urProgramGetBuildInfo p Dev)));
      [|exists [e]; split; [reflexivity|by exists Dev]..].
    destruct (reconcile_switch_calls Plugin ctx State Dev
                (out_binary_type (Plugin t (urProgramGetBuildInfo p Dev)))
                p (t ++ [e])) as (ops & Eops & _ & _).
    destruct (reconcile_switch _ _ _ _ _ _ _) as [[p1|x] t1];
      simpl in Eops; subst t1.
    + destruct (IH p1 ((t ++ [e]) ++ ops)) as (ext & E & _).
      exists (e :: ops ++ ext). rewrite E, <- !app_assoc.
      split; [reflexivity|by exists Dev].
    + exists (e :: ops). rewrite <- app_assoc.
      split; [reflexivity|by exists Dev].
Qed.

Lemma reconcile_devices_at_query Plugin ctx State devs :
  forall p t pre q post pq Dev,
    (reconcile_devices Plugin ctx State devs p t).2 = t ++ pre ++ q :: post ->
    ev_call q = urProgramGetBuildInfo pq Dev ->
    succeeded q ->
    Dev ∈ devs /\
    follows_switch Plugin ctx State (t ++ pre) q Dev pq post
      (thrown (reconcile_devices Plugin ctx State devs p t).1).
Proof.
  induction devs as [|D rest IH]; intros p t pre q post pq Dev Hlog Hq Hok.
  - simpl in Hlog. exfalso. destruct pre; by apply log_unchanged_inv in Hlog.
  - assert (Hisq : is_binary_type_query (ev_call q) = true)
      by (rewrite Hq; reflexivity).
    rewrite reconcile_devices_cons in Hlog |- *.
    set (e := entry Plugin t (urProgramGetBuildInfo p D)) in *.
    assert (Hfail : forall (o : outcome ur_handle),
               (o, t ++ [e]).2 = t ++ pre ++ q :: post ->
               rep_result (ev_reply e) <> UR_RESULT_SUCCESS -> False).
    { intros o H Hne. simpl in H. apply app_inv_head in H.
      destruct pre as [|y pre]; simpl in H; inversion H as [[Hqe Hnil]].
      - subst q. by apply Hne.
      - destruct pre; discriminate Hnil. }
    destruct (rep_result (Plugin t (urProgramGetBuildInfo p D))) eqn:Er;
      [|exfalso; apply (Hfail _ Hlog); unfold e; simpl; rewrite Er;
        discriminate..].
    clear Hfail.
    destruct (reconcile_switch_calls Plugin ctx State D
                (out_binary_type (Plugin t (urProgramGetBuildInfo p D)))
                p (t ++ [e])) as (ops & Eops & Fops & _).
    pose proof (device_ops_not_queries ops Fops) as Fnq.
    destruct (reconcile_switch Plugin ctx State D
                (out_binary_type (Plugin t (urProgramGetBuildInfo p D)))
                p (t ++ [e])) as [o1 t1] eqn:Hsw.
    simpl in Eops. subst t1.
    assert (Hhere : forall rest' err,
               e :: ops ++ rest' = pre ++ q :: post ->
               pre = [] ->
               match o1 with
               | Ok p1 =>
                   match rest' with
                   | [] => True
                   | next :: _ =>
                       exists Dev', ev_call next = urProgramGetBuildInfo p1 Dev'
                   end
               | Throw x => rest' = [] /\ err = Some x
               end ->
               Dev ∈ D :: rest /\
               follows_switch Plugin ctx State (t ++ pre) q Dev pq post err).
    { intros rest' err H -> Hout. simpl in H. inversion H; subst q post.
      unfold e in Hq. simpl in Hq. inversion Hq; subst pq Dev.
      split; [left|]. unfold follows_switch. rewrite app_nil_r.
      split; [reflexivity|]. exists ops, rest'.
      change (ev_reply e) with (Plugin t (urProgramGetBuildInfo p D)).
      rewrite Hsw. simpl. split; [reflexivity|]. split; [reflexivity|].
      exact Hout. }
    destruct o1 as [p1|x].
    + destruct (reconcile_devices_log Plugin ctx State rest p1
                  ((t ++ [e]) ++ ops)) as (ext & E & Hhead).
      rewrite E, <- !app_assoc in Hlog. apply app_inv_head in Hlog.
      simpl in Hlog.
      destruct pre as [|y pre].
      * apply (Hhere ext); [exact Hlog|reflexivity|exact Hhead].
      * simpl in Hlog. inversion Hlog as [[Hy Htail]]. subst y.
        symmetry in Htail.
        destruct (split_at_query _ _ _ _ _ Htail Fnq Hisq)
          as (pre' & -> & Hext).
        rewrite Hext in E.
        destruct (IH p1 ((t ++ [e]) ++ ops) pre' q post pq Dev E Hq Hok)
          as [Hin Hfs].
        split; [by right|].
        replace (t ++ e :: ops ++ pre') with (((t ++ [e]) ++ ops) ++ pre')
          by (by rewrite <- !app_assoc).
        exact Hfs.
    + simpl in Hlog. rewrite <- app_assoc in Hlog.
      apply app_inv_head in Hlog. simpl in Hlog.
      destruct pre as [|y pre].
      * apply (Hhere []); [by rewrite app_nil_r|reflexivity|by split].
      * exfalso. simpl in Hlog. inversion Hlog as [[Hy Htail]].
        symmetry in Htail. by apply (no_query_among _ _ _ _ Htail Fnq).
Qed.

(** ** From the loop to make_kernel_bundle *)

Lemma reconcile_imported_unfold gp Plugin Ctx State p t :
  let eN := entry Plugin t
              (urProgramGetInfo p UR_PROGRAM_INFO_NUM_DEVICES 4) in
  let n := default 0%nat (out_uint32 (ev_reply eN)) in
  let eD := entry Plugin (t ++ [eN])
              (urProgramGetInfo p UR_PROGRAM_INFO_DEVICES (8 * Z.of_nat n)) in
  let devs := resize n nullptr (out_devices (ev_reply eD)) in
  reconcile_imported gp Plugin Ctx State p t
  = match rep_result (ev_reply eN) with
    | UR_RESULT_SUCCESS =>
        match rep_result (ev_reply eD) with
        | UR_RESULT_SUCCESS =>
            (p' <- reconcile_devices Plugin Ctx State devs p ;;
             ret {| bundle_context := Ctx;
                    bundle_devices := map (wrap_device gp Plugin) devs;
                    bundle_images :=
                      [{| image_context := Ctx;
                          image_devices := map (wrap_device gp Plugin) devs;
                          image_state := State;
                          image_kernel_ids := [];
                          get_ur_program_ref := p' |}] |})%interop
              (t ++ [eN; eD])
        | res => (Throw (ur_call_failed errc_runtime res), t ++ [eN; eD])
        end
    | res => (Throw (ur_call_failed errc_runtime res), t ++ [eN])
    end.
Proof.
  intros eN n eD devs. unfold reconcile_imported.
  unfold bind at 1. rewrite call_eq.
  change (Plugin t (urProgramGetInfo p UR_PROGRAM_INFO_NUM_DEVICES 4))
    with (ev_reply eN).
  destruct (rep_result (ev_reply eN)); try reflexivity.
  unfold bind at 1. rewrite call_eq.
  change (Plugin (t ++ [entry Plugin t
                          (urProgramGetInfo p UR_PROGRAM_INFO_NUM_DEVICES 4)])
            (urProgramGetInfo p UR_PROGRAM_INFO_DEVICES
               (8 * Z.of_nat (default 0%nat (out_uint32 (ev_reply eN))))))
    with (ev_reply eD).
  replace (t ++ [eN; eD]) with ((t ++ [eN]) ++ [eD])
    by (by rewrite <- app_assoc).
  destruct (rep_result (ev_reply eD)); reflexivity.
Qed.

Lemma reconcile_imported_loop gp Plugin Ctx State p t :
  exists hd,
    Forall (fun ev => is_binary_type_query (ev_call ev) = false) hd /\
    ((reconcile_imported gp Plugin Ctx State p t).2 = t ++ hd \/
     exists devs,
       (forall Dev, Dev ∈ devs -> reported_device Dev hd) /\
       (reconcile_imported gp Plugin Ctx State p t).2
       = (reconcile_devices Plugin Ctx State devs p (t ++ hd)).2 /\
       thrown (reconcile_imported gp Plugin Ctx State p t).1
       = thrown (reconcile_devices Plugin Ctx State devs p (t ++ hd)).1).
Proof.
  rewrite reconcile_imported_unfold.
  set (eN := entry Plugin t (urProgramGetInfo p UR_PROGRAM_INFO_NUM_DEVICES 4)).
  set (n := default 0%nat (out_uint32 (ev_reply eN))).
  set (eD := entry Plugin (t ++ [eN])
               (urProgramGetInfo p UR_PROGRAM_INFO_DEVICES (8 * Z.of_nat n))).
  destruct (rep_result (ev_reply eN));
    [|exists [eN]; split; [repeat constructor|left; reflexivity]..].
  destruct (rep_result (ev_reply eD));
    [|exists [eN; eD]; split; [repeat constructor|left; reflexivity]..].
  exists [eN; eD]. split; [repeat constructor|]. right.
  exists (resize n nullptr (out_devices (ev_reply eD))).
  split.
  - intros Dev HDev.
    exists eN, eD, p, 4, (8 * Z.of_nat n).
    split; [left|]. split; [right; left|].
    split; [reflexivity|]. split; [reflexivity|exact HDev].
  - unfold bind.
    destruct (reconcile_devices _ _ _ _ _ _) as [[p'|x] t1]; by split.
Qed.

Lemma make_kernel_bundle_unfold pi gp h Ctx keep State Backend t :
  let e0 := entry (pi Backend) t
              (urProgramCreateWithNativeHandle h (context_handle Ctx)
                 (Some {| isNativeHandleOwned := negb keep |})) in
  let p := written nullptr (ev_reply e0) in
  let e1 := entry (pi Backend) (t ++ [e0]) (urProgramRetain p) in
  make_kernel_bundle pi gp h Ctx keep State Backend t
  = if supported_backend Backend then
      match rep_result (ev_reply e0) with
      | UR_RESULT_SUCCESS =>
          if decide (context_backend Ctx = backend_opencl) then
            match rep_result (ev_reply e1) with
            | UR_RESULT_SUCCESS =>
                reconcile_imported gp (pi Backend) Ctx State p (t ++ [e0; e1])
            | res => (Throw (ur_call_failed errc_runtime res), t ++ [e0; e1])
            end
          else reconcile_imported gp (pi Backend) Ctx State p (t ++ [e0])
      | res => (Throw (ur_call_failed errc_runtime res), t ++ [e0])
      end
    else (Throw unsupported_backend_error, t).
Proof.
  intros e0 p e1. rewrite make_kernel_bundle_eq.
  destruct (supported_backend Backend) eqn:Hs.
  2:{ by rewrite (bind_Throw _ _ _ _ _ (getUrPlugin_unsupported pi _ t Hs)). }
  rewrite (bind_Ok _ _ _ _ _ (getUrPlugin_supported pi _ t Hs)).
  unfold bind at 1. rewrite call_eq.
  change (pi Backend t
            (urProgramCreateWithNativeHandle h (context_handle Ctx)
               (Some {| isNativeHandleOwned := negb keep |})))
    with (ev_reply e0).
  destruct (rep_result (ev_reply e0)); try reflexivity.
  destruct (decide (context_backend Ctx = backend_opencl)) as [Hb|Hb].
  - unfold bind at 1 2. rewrite call_eq.
    change (pi Backend
              (t ++ [entry (pi Backend) t
                       (urProgramCreateWithNativeHandle h (context_handle Ctx)
                          (Some {| isNativeHandleOwned := negb keep |}))])
              (urProgramRetain (written nullptr (ev_reply e0))))
      with (ev_reply e1).
    replace (t ++ [e0; e1]) with ((t ++ [e0]) ++ [e1])
      by (by rewrite <- app_assoc).
    destruct (rep_result (ev_reply e1)); reflexivity.
  - by rewrite bind_ret_l.
Qed.

Lemma make_kernel_bundle_loop pi gp h Ctx keep State Backend t :
  exists hd,
    Forall (fun ev => is_binary_type_query (ev_call ev) = false) hd /\
    ((make_kernel_bundle pi gp h Ctx keep State Backend t).2 = t ++ hd \/
     exists devs p,
       (forall Dev, Dev ∈ devs -> reported_device Dev hd) /\
       (make_kernel_bundle pi gp h Ctx keep State Backend t).2
       = (reconcile_devices (pi Backend) Ctx State devs p (t ++ hd)).2 /\
       thrown (make_kernel_bundle pi gp h Ctx keep State Backend t).1
       = thrown (reconcile_devices (pi Backend) Ctx State devs p (t ++ hd)).1).
Proof.
  rewrite make_kernel_bundle_unfold.
  set (e0 := entry (pi Backend) t
               (urProgramCreateWithNativeHandle h (context_handle Ctx)
                  (Some {| isNativeHandleOwned := negb keep |}))).
  set (p := written nullptr (ev_reply e0)).
  set (e1 := entry (pi Backend) (t ++ [e0]) (urProgramRetain p)).
  destruct (supported_backend Backend).
  2:{ exists []. split; [constructor|]. left. simpl. by rewrite app_nil_r. }
  destruct (rep_result (ev_reply e0));
    [|exists [e0]; split; [repeat constructor|left; reflexivity]..].
  assert (Hgo : forall front,
             Forall (fun ev => is_binary_type_query (ev_call ev) = false)
                    front ->
             exists hd,
               Forall (fun ev => is_binary_type_query (ev_call ev) = false) hd /\
               ((reconcile_imported gp (pi Backend) Ctx State p (t ++ front)).2
                = t ++ hd \/
                exists devs p0,
                  (forall Dev, Dev ∈ devs -> reported_device Dev hd) /\
                  (reconcile_imported gp (pi Backend) Ctx State p (t ++ front)).2
                  = (reconcile_devices (pi Backend) Ctx State devs p0
                       (t ++ hd)).2 /\
                  thrown (reconcile_imported gp (pi Backend) Ctx State p
                            (t ++ front)).1
                  = thrown (reconcile_devices (pi Backend) Ctx State devs p0
                              (t ++ hd)).1)).
  { intros front Ffront.
    destruct (reconcile_imported_loop gp (pi Backend) Ctx State p (t ++ front))
      as (hd & Fhd & [Hl|(devs & Hrep & Hl & Hthr)]).
    - exists (front ++ hd). split; [by apply Forall_app|]. left.
      by rewrite Hl, <- app_assoc.
    - exists (front ++ hd). split; [by apply Forall_app|]. right.
      exists devs, p. split.
      + intros Dev HDev.
        rewrite <- (app_nil_r hd). by apply reported_device_mono, Hrep.
      + by rewrite Hl, Hthr, <- app_assoc. }
  destruct (decide (context_backend Ctx = backend_opencl)) as [Hb|Hb].
  - destruct (rep_result (ev_reply e1));
      [|exists [e0; e1]; split; [repeat constructor|left; reflexivity]..].
    apply (Hgo [e0; e1]). repeat constructor.
  - apply (Hgo [e0]). repeat constructor.
Qed.

Lemma make_kernel_bundle_at_query pi gp h Ctx keep State Backend t
    pre q post pq Dev :
  (make_kernel_bundle pi gp h Ctx keep State Backend t).2
  = t ++ pre ++ q :: post ->
  ev_call q = urProgramGetBuildInfo pq Dev ->
  succeeded q ->
  reported_device Dev pre /\
  follows_switch (pi Backend) Ctx State (t ++ pre) q Dev pq post
    (thrown (make_kernel_bundle pi gp h Ctx keep State Backend t).1).
Proof.
  intros Hlog Hq Hok.
  assert (Hisq : is_binary_type_query (ev_call q) = true)
    by (rewrite Hq; reflexivity).
  destruct (make_kernel_bundle_loop pi gp h Ctx keep State Backend t)
    as (hd & Fhd & [Hl|(devs & p & Hrep & Hl & Hthr)]).
  - exfalso. rewrite Hl in Hlog. apply app_inv_head in Hlog.
    symmetry in Hlog. by apply (no_query_among _ _ _ _ Hlog Fhd).
  - destruct (reconcile_devices_log (pi Backend) Ctx State devs p (t ++ hd))
      as (ext & E & _).
    rewrite Hl, E, <- app_assoc in Hlog. apply app_inv_head in Hlog.
    symmetry in Hlog.
    destruct (split_at_query _ _ _ _ _ Hlog Fhd Hisq) as (pre' & -> & Hext).
    rewrite Hext in E.
    destruct (reconcile_devices_at_query (pi Backend) Ctx State devs p
                (t ++ hd) pre' q post pq Dev E Hq Hok) as [Hin Hfs].
    split.
    + rewrite <- (app_nil_l (hd ++ pre')).
      by apply reported_device_mono, Hrep.
    + rewrite Hthr, app_assoc. exact Hfs.
Qed.



(** ** The table and the fallback, in a run of make_kernel_bundle *)



(** C5.  In every run of [make_kernel_bundle], for a device whose answered
    binary-type query calls for a compile, build or link, the next call is
    the modern "Exp" entry point of that operation, for that device and the
    current program.  The legacy whole-program entry point is called, once
    and directly after it, exactly when the modern call answers
    unsupported-feature.  If the last of these calls succeeds, nothing more
    is called for the device.  If it fails, nothing more is called at all
    and the import throws an [errc::build] error carrying that result: no
    retry, and no bundle. *)
Theorem modern_then_legacy pi gp h Ctx keep State Backend t pre q post p Dev op :
  (make_kernel_bundle pi gp h Ctx keep State Backend t).2
  = t ++ pre ++ q :: post ->
  ev_call q = urProgramGetBuildInfo p Dev ->
  succeeded q ->
  spec_action (out_binary_type (ev_reply q)) State = Some (act_run op) ->
  let t1 := (t ++ pre) ++ [q] in
  let e1 := entry (pi Backend) t1 (modern_call op Ctx Dev p) in
  let p1 := program_after op p (ev_reply e1) in
  let e2 := entry (pi Backend) (t1 ++ [e1]) (legacy_call op Ctx p1) in
  let unsupported :=
    bool_decide (rep_result (ev_reply e1) = UR_RESULT_ERROR_UNSUPPORTED_FEATURE) in
  let last := if unsupported then e2 else e1 in
  reported_device Dev pre /\
  q = entry (pi Backend) (t ++ pre) (urProgramGetBuildInfo p Dev) /\
  exists rest,
    post = (if unsupported then [e1; e2] else [e1]) ++ rest /\
    (rep_result (ev_reply last) = UR_RESULT_SUCCESS ->
     match rest with
     | [] => True
     | next :: _ => is_binary_type_query (ev_call next) = true
     end) /\
    (rep_result (ev_reply last) <> UR_RESULT_SUCCESS ->
     rest = [] /\
     (make_kernel_bundle pi gp h Ctx keep State Backend t).1
     = Throw (ur_call_failed errc_build (rep_result (ev_reply last)))).
Proof.
  intros Hlog Hq Hok Ha t1 e1 p1 e2 unsupported last.
  destruct (make_kernel_bundle_at_query pi gp h Ctx keep State Backend t
              pre q post p Dev Hlog Hq Hok)
    as (Hrep & Hentry & ops & rest & Hsw & -> & Hout).
  split; [exact Hrep|]. split; [exact Hentry|].
  pose proof (reconcile_switch_fallback (pi Backend) Ctx State Dev
                (out_binary_type (ev_reply q)) p t1 op Ha) as Hfb.
  cbv zeta in Hfb. fold e1 p1 e2 in Hfb. fold t1 in Hsw, Hout.
  destruct (reconcile_switch (pi Backend) Ctx State Dev
              (out_binary_type (ev_reply q)) p t1) as [o1 tsw].
  simpl in Hsw, Hout. cbn [fst snd] in Hfb. subst tsw.
  exists rest. unfold last, unsupported.
  destruct (decide (rep_result (ev_reply e1)
                    = UR_RESULT_ERROR_UNSUPPORTED_FEATURE)) as [Hu|Hu].
  - rewrite (bool_decide_eq_true_2 _ Hu).
    destruct Hfb as [E Ho]. apply app_inv_head in E. subst ops o1.
    split; [reflexivity|].
    unfold build_checked in Hout.
    destruct (rep_result (ev_reply e2)) eqn:Er2.
    + split; [|done]. intros _.
      destruct rest as [|next rest]; [done|].
      destruct Hout as [Dev' ->]. reflexivity.
    + split; [discriminate|]. intros _. destruct Hout as [-> Herr].
      split; [reflexivity|]. by apply thrown_Some.
    + split; [discriminate|]. intros _. destruct Hout as [-> Herr].
      split; [reflexivity|]. by apply thrown_Some.
  - rewrite (bool_decide_eq_false_2 _ Hu).
    destruct Hfb as [E Ho]. apply app_inv_head in E. subst ops o1.
    split; [reflexivity|].
    unfold build_checked in Hout.
    destruct (rep_result (ev_reply e1)) eqn:Er1.
    + split; [|done]. intros _.
      destruct rest as [|next rest]; [done|].
      destruct Hout as [Dev' ->]. reflexivity.
    + done.
    + split; [discriminate|]. intros _. destruct Hout as [-> Herr].
      split; [reflexivity|]. by apply thrown_Some.
Qed.

Lemma modern_then_legacy_witness :
  exists rest,
    [entry (sim_plugin_legacy [101] UR_PROGRAM_BINARY_TYPE_LIBRARY) []
       (urProgramLinkExp 50 [101] [7]);
     entry (sim_plugin_legacy [101] UR_PROGRAM_BINARY_TYPE_LIBRARY) []
       (urProgramLink 50 [7])]
    = [entry (sim_plugin_legacy [101] UR_PROGRAM_BINARY_TYPE_LIBRARY) []
         (urProgramLinkExp 50 [101] [7]);
       entry (sim_plugin_legacy [101] UR_PROGRAM_BINARY_TYPE_LIBRARY) []
         (urProgramLink 50 [7])] ++ rest.
Proof.
  destruct (modern_then_legacy
              (fun _ => sim_plugin_legacy [101] UR_PROGRAM_BINARY_TYPE_LIBRARY)
              sim_platform_of 9 (sim_context backend_ext_oneapi_hip) true
              bundle_state_executable backend_ext_oneapi_hip []
              [entry (sim_plugin_legacy [101] UR_PROGRAM_BINARY_TYPE_LIBRARY) []
                 (urProgramCreateWithNativeHandle 9 50
                    (Some {| isNativeHandleOwned := false |}));
               entry (sim_plugin_legacy [101] UR_PROGRAM_BINARY_TYPE_LIBRARY) []
                 (urProgramGetInfo 7 UR_PROGRAM_INFO_NUM_DEVICES 4);
               entry (sim_plugin_legacy [101] UR_PROGRAM_BINARY_TYPE_LIBRARY) []
                 (urProgramGetInfo 7 UR_PROGRAM_INFO_DEVICES 8)]
              (entry (sim_plugin_legacy [101] UR_PROGRAM_BINARY_TYPE_LIBRARY) []
                 (urProgramGetBuildInfo 7 101))
              [entry (sim_plugin_legacy [101] UR_PROGRAM_BINARY_TYPE_LIBRARY) []
                 (urProgramLinkExp 50 [101] [7]);
               entry (sim_plugin_legacy [101] UR_PROGRAM_BINARY_TYPE_LIBRARY) []
                 (urProgramLink 50 [7])]
              7 101 op_link eq_refl eq_refl eq_refl eq_refl)
    as (_ & _ & rest & Hpost & _).
  exists rest. exact Hpost.
Defined.
